(** * fastly-object-storage: a shallow embedding of the client wrapper

    The development follows the TypeScript sources:
    - [errors/FastlyStorageError]  : the normalized error, [fromS3Error], [isRetryable];
    - [utils/validation]           : [validateConfig], [validateBucketName];
    - [client]                     : [_mergeConfig], [_initializeS3Client], the constructor;
    - [operations/BucketOperations], [operations/ObjectOperations],
      [operations/MultipartOperations].

    Conventions of the embedding.
    - A JavaScript [string] is a [string] of code units; an optional field
      ([x?: T], a possibly [undefined] value) is an [option].
    - A JavaScript [number] that holds a count, a status or a duration is an
      integer of [Z]. Where a property turns on how numbers compare or add
      (the validation of [maxRetries] and [timeout], [maxAttempts]), the code
      is read again in [NumericConfig], with IEEE 754 doubles.
    - The wrapped S3 client is an external collaborator: [client.send] is an
      oracle over an abstract backend state, which either answers or throws.
    - [async] methods are run to completion: a rejected promise is a thrown
      value, a fulfilled one a returned value.
    - Logger methods are sinks that return normally; every call is recorded in
      the trace of the world, as is every command handed to [client.send].
      Where a property turns on a logger that throws (the session map on a
      failure path, the constructor), the code is read again in
      [ThrowingLogger] and [NumericConfig], with a logger that may throw. *)

From Stdlib Require Import ZArith Ascii String List Lia Bool.
From Stdlib Require Floats.SpecFloat.
From stdpp Require Import base option strings list gmap.

Local Open Scope string_scope.
Local Open Scope Z_scope.
Local Open Scope list_scope.

(** ** JavaScript values and truthiness *)

Module Js.

(** The values stored in an error's context map. *)
Inductive JsValue :=
| VUndefined
| VString (s : string)
| VNumber (n : Z).

(** [!!s] for a possibly undefined string: [undefined] and [''] are falsy. *)
Definition truthy_string (s : option string) : bool :=
  match s with
  | Some EmptyString => false
  | Some _ => true
  | None => false
  end.

(** [!!n] for a possibly undefined integer: [undefined] and [0] are falsy. *)
Definition truthy_number (n : option Z) : bool :=
  match n with
  | Some 0 => false
  | Some _ => true
  | None => false
  end.

(** [a || b] on possibly undefined strings. *)
Definition or_string (a b : option string) : option string :=
  if truthy_string a then a else b.

(** [a ?? b]: only [undefined] (and [null]) give way to [b]. *)
Definition nullish {A} (a : option A) (b : A) : A :=
  match a with
  | Some v => v
  | None => b
  end.

(** A string read where the value is known to be truthy, [''] otherwise. *)
Definition string_of (a : option string) : string := nullish a "".

Definition of_opt_string (a : option string) : JsValue :=
  match a with Some s => VString s | None => VUndefined end.

End Js.
Import Js.

(** ** errors/FastlyStorageError *)

(** [$metadata] of an error raised by the S3 SDK. *)
Record S3Metadata := {
  httpStatusCode : option Z;
  requestId : option string;
}.

(** The values this code throws and catches: errors raised by the wrapped
    client (an [Error] with a name, a message and possibly [$metadata]) and
    the wrapper's own [FastlyStorageError], whose [cause] may hold either. *)
Inductive JsError :=
| SdkError (name message : string) (metadata : option S3Metadata)
| OfFastly (e : FastlyStorageError)
with FastlyStorageError :=
| MkFastlyStorageError
    (message code : string)
    (statusCode : option Z)
    (context : option (gmap string JsValue))
    (cause : option JsError).

Definition message (e : FastlyStorageError) : string :=
  match e with MkFastlyStorageError m _ _ _ _ => m end.
Definition code (e : FastlyStorageError) : string :=
  match e with MkFastlyStorageError _ c _ _ _ => c end.
Definition statusCode (e : FastlyStorageError) : option Z :=
  match e with MkFastlyStorageError _ _ s _ _ => s end.
Definition context (e : FastlyStorageError) : option (gmap string JsValue) :=
  match e with MkFastlyStorageError _ _ _ c _ => c end.
Definition cause (e : FastlyStorageError) : option JsError :=
  match e with MkFastlyStorageError _ _ _ _ c => c end.

(** The [options] argument of the constructor. *)
Record ErrorOptions := {
  opt_statusCode : option Z;
  opt_context : option (gmap string JsValue);
  opt_cause : option JsError;
}.

(** [new FastlyStorageError(message, code, options?)]. An error object is
    truthy, so [if (options?.cause)] keeps every cause that is given. *)
Definition new_FastlyStorageError
    (msg cd : string) (options : option ErrorOptions) : FastlyStorageError :=
  MkFastlyStorageError msg cd
    (options ≫= opt_statusCode)
    (options ≫= opt_context)
    (options ≫= opt_cause).

(** What [error as S3ServiceError] reads from a caught value. The class
    [FastlyStorageError] sets [this.name = 'FastlyStorageError'] and has no
    [$metadata] property. *)
Definition error_name (e : JsError) : string :=
  match e with
  | SdkError n _ _ => n
  | OfFastly _ => "FastlyStorageError"
  end.

Definition error_message (e : JsError) : string :=
  match e with
  | SdkError _ m _ => m
  | OfFastly f => message f
  end.

Definition error_metadata (e : JsError) : option S3Metadata :=
  match e with
  | SdkError _ _ md => md
  | OfFastly _ => None
  end.

(** [{ ...context, requestId: r }]. *)
Definition with_requestId
    (ctx : option (gmap string JsValue)) (r : option string) : gmap string JsValue :=
  <["requestId" := of_opt_string r]> (nullish ctx ∅).

(** [static fromS3Error(error, context?)]. *)
Definition fromS3Error
    (error : JsError) (ctx : option (gmap string JsValue)) : FastlyStorageError :=
  let md := error_metadata error in
  let status := md ≫= httpStatusCode in
  new_FastlyStorageError
    (string_of (or_string (Some (error_message error)) (Some "S3 operation failed")))
    (if decide (status = Some 404) then "NOT_FOUND"
     else string_of (or_string (Some (error_name error)) (Some "UNKNOWN_ERROR")))
    (Some {| opt_statusCode := status;
             opt_context := Some (with_requestId ctx (md ≫= requestId));
             opt_cause := Some error |}).

(** [isRetryable()]. *)
Definition isRetryable (e : FastlyStorageError) : bool :=
  if negb (truthy_number (statusCode e)) then false
  else if bool_decide (500 ≤ nullish (statusCode e) 0) then true
  else if bool_decide (statusCode e = Some 429) then true
  else if bool_decide (statusCode e = Some 408) then true
  else if bool_decide (code e = "ECONNRESET") || bool_decide (code e = "ETIMEDOUT") then true
  else false.

(** ** Regular expressions, as used by [RegExp.prototype.test] *)

Module RegExp.

(** The fragment of the pattern language the validators use. *)
Inductive regex :=
| Void
| Eps
| Class (p : ascii -> bool)
| Cat (r1 r2 : regex)
| Alt (r1 r2 : regex)
| Star (r : regex).

Fixpoint nullable (r : regex) : bool :=
  match r with
  | Void => false
  | Eps => true
  | Class _ => false
  | Cat r1 r2 => nullable r1 && nullable r2
  | Alt r1 r2 => nullable r1 || nullable r2
  | Star _ => true
  end.

(** The residual of [r] after reading [c]. *)
Fixpoint deriv (c : ascii) (r : regex) : regex :=
  match r with
  | Void => Void
  | Eps => Void
  | Class p => if p c then Eps else Void
  | Cat r1 r2 =>
      if nullable r1
      then Alt (Cat (deriv c r1) r2) (deriv c r2)
      else Cat (deriv c r1) r2
  | Alt r1 r2 => Alt (deriv c r1) (deriv c r2)
  | Star r1 => Cat (deriv c r1) (Star r1)
  end.

(** Whole-input match. *)
Fixpoint matches (r : regex) (s : list ascii) : bool :=
  match s with
  | [] => nullable r
  | c :: s' => matches (deriv c r) s'
  end.

(** A pattern literal: [^] and [$] are assertions at the two ends of the
    input (no [m] flag is used in this code base). *)
Record pattern := {
  anchored_start : bool;
  body : regex;
  anchored_end : bool;
}.

Definition any : regex := Class (fun _ => true).

(** [pattern.test(s)]: some substring matches, pinned to the ends the
    pattern anchors. *)
Definition test (p : pattern) (s : string) : bool :=
  matches
    (Cat (if anchored_start p then Eps else Star any)
         (Cat (body p) (if anchored_end p then Eps else Star any)))
    (list_ascii_of_string s).

(** [lo-hi] inside a bracket expression. *)
Definition in_range (lo hi c : ascii) : bool :=
  (N_of_ascii lo <=? N_of_ascii c)%N && (N_of_ascii c <=? N_of_ascii hi)%N.

Definition is_char (x c : ascii) : bool := Ascii.eqb x c.

(** [[a-z0-9]] *)
Definition lower_or_digit (c : ascii) : bool :=
  in_range "a" "z" c || in_range "0" "9" c.

(** [[a-z0-9.-]] *)
Definition lower_digit_dot_hyphen (c : ascii) : bool :=
  in_range "a" "z" c || in_range "0" "9" c || is_char "." c || is_char "-" c.

(** [/^[a-z0-9][a-z0-9.-]*[a-z0-9]$/] *)
Definition bucket_name_pattern : pattern :=
  {| anchored_start := true;
     body := Cat (Class lower_or_digit)
                 (Cat (Star (Class lower_digit_dot_hyphen)) (Class lower_or_digit));
     anchored_end := true |}.

(** [/\.\./] *)
Definition double_dot_pattern : pattern :=
  {| anchored_start := false;
     body := Cat (Class (is_char ".")) (Class (is_char "."));
     anchored_end := false |}.

End RegExp.

(** ** types: configuration *)

(** The logger capability. A caller-supplied logger is an opaque object. *)
Inductive Logger :=
| DefaultLogger
| CustomLogger (handle : nat).

Record RetryPolicy := {
  rp_maxRetries : Z;
  retryDelay : Z;
  retryDelayMultiplier : Z;
  maxRetryDelay : option Z;
  rp_isRetryable : option (JsError -> bool);
}.

(** [FastlyStorageConfig]: every field is optional. *)
Record FastlyStorageConfig := {
  cfg_endpoint : option string;
  cfg_accessKeyId : option string;
  cfg_secretAccessKey : option string;
  cfg_region : option string;
  cfg_maxRetries : option Z;
  cfg_timeout : option Z;
  cfg_logger : option Logger;
  cfg_retryPolicy : option RetryPolicy;
  cfg_forcePathStyle : option bool;
}.

(** The constructor's default argument, [{}]. *)
Definition empty_config : FastlyStorageConfig :=
  {| cfg_endpoint := None; cfg_accessKeyId := None; cfg_secretAccessKey := None;
     cfg_region := None; cfg_maxRetries := None; cfg_timeout := None;
     cfg_logger := None; cfg_retryPolicy := None; cfg_forcePathStyle := None |}.

(** [Required<FastlyStorageConfig>]. *)
Record RequiredConfig := {
  endpoint : string;
  accessKeyId : string;
  secretAccessKey : string;
  region : string;
  maxRetries : Z;
  timeout : Z;
  logger : Logger;
  retryPolicy : RetryPolicy;
  forcePathStyle : bool;
}.

(** [process.env] *)
Abbreviation Env := (gmap string string).

(** ** utils/validation *)

(** The platform's URL parser: [URL_parses s] holds when [new URL(s)]
    returns instead of throwing. *)
Class Platform := {
  URL_parses : string -> bool;
}.

Section Validation.
Context `{Platform}.

Definition isValidUrl (url : string) : bool := URL_parses url.

Definition field_context (field : string) : gmap string JsValue :=
  {[ "field" := VString field ]}.

Definition only_context (c : gmap string JsValue) : option ErrorOptions :=
  Some {| opt_statusCode := None; opt_context := Some c; opt_cause := None |}.

(** [validateConfig(config)]: [inl e] when it throws [e]. *)
Definition validateConfig (config : RequiredConfig) : FastlyStorageError + unit :=
  if negb (truthy_string (Some (endpoint config))) then
    inl (new_FastlyStorageError
           "Endpoint is required. Set FASTLY_ENDPOINT environment variable or provide in config."
           "INVALID_CONFIG" (only_context (field_context "endpoint")))
  else if negb (truthy_string (Some (accessKeyId config))) then
    inl (new_FastlyStorageError
           "Access Key ID is required. Set FASTLY_ACCESS_KEY_ID environment variable or provide in config."
           "INVALID_CONFIG" (only_context (field_context "accessKeyId")))
  else if negb (truthy_string (Some (secretAccessKey config))) then
    inl (new_FastlyStorageError
           "Secret Access Key is required. Set FASTLY_SECRET_ACCESS_KEY environment variable or provide in config."
           "INVALID_CONFIG" (only_context (field_context "secretAccessKey")))
  else if negb (isValidUrl (endpoint config)) then
    inl (new_FastlyStorageError "Invalid endpoint URL" "INVALID_CONFIG"
           (only_context (<["value" := VString (endpoint config)]> (field_context "endpoint"))))
  else if bool_decide (maxRetries config < 0) then
    inl (new_FastlyStorageError "maxRetries must be non-negative" "INVALID_CONFIG"
           (only_context (<["value" := VNumber (maxRetries config)]> (field_context "maxRetries"))))
  else if bool_decide (timeout config ≤ 0) then
    inl (new_FastlyStorageError "timeout must be positive" "INVALID_CONFIG"
           (only_context (<["value" := VNumber (timeout config)]> (field_context "timeout"))))
  else inr tt.

End Validation.

Definition name_context (name : string) : gmap string JsValue :=
  {[ "name" := VString name ]}.

(** [validateBucketName(name)]: [inl e] when it throws [e]. *)
Definition validateBucketName (name : string) : FastlyStorageError + unit :=
  if negb (truthy_string (Some name)) then
    inl (new_FastlyStorageError "Bucket name is required" "INVALID_BUCKET_NAME" None)
  else if (String.length name <? 3)%nat || (63 <? String.length name)%nat then
    inl (new_FastlyStorageError
           "Bucket name must be between 3 and 63 characters"
           "INVALID_BUCKET_NAME" (only_context (name_context name)))
  else if negb (RegExp.test RegExp.bucket_name_pattern name) then
    inl (new_FastlyStorageError
           "Bucket name must start and end with a letter or number, and contain only lowercase letters, numbers, dots, and hyphens"
           "INVALID_BUCKET_NAME" (only_context (name_context name)))
  else if RegExp.test RegExp.double_dot_pattern name then
    inl (new_FastlyStorageError
           "Bucket name cannot contain consecutive dots"
           "INVALID_BUCKET_NAME" (only_context (name_context name)))
  else inr tt.

(** ** types: options and results of the operations *)

Abbreviation Buffer := (list Byte.byte).

(** A [Date], as its time value. *)
Abbreviation Date := Z.

Record BucketConfig := {
  bc_acl : option string;
  bc_region : option string;
}.

(** [name: bucket.Name!] and [creationDate: bucket.CreationDate!]: the
    non-null assertions are erased, so both may be [undefined] at run time. *)
Record BucketInfo := {
  name : option string;
  creationDate : option Date;
}.

Record UploadObjectOptions := {
  contentType : option string;
  metadata : option (gmap string string);
  cacheControl : option string;
  contentDisposition : option string;
  contentEncoding : option string;
  acl : option string;
  serverSideEncryption : option string;
  storageClass : option string;
}.

Record GetObjectOptions := {
  range : option string;
  ifModifiedSince : option Date;
  ifUnmodifiedSince : option Date;
  ifMatch : option string;
  ifNoneMatch : option string;
}.

(** A [Readable]: the chunks its ['data'] events deliver, then ['end'], or
    ['error'] with the given value. *)
Record Readable := {
  chunks : list Buffer;
  failure : option JsError;
}.

Record DownloadResult := {
  dl_body : Buffer;
  dl_contentType : option string;
  dl_contentLength : Z;
  dl_etag : string;
  dl_lastModified : Date;
  dl_metadata : gmap string string;
}.

Record MultipartUploadResult := {
  uploadId : string;
  bucket : string;
  key : string;
}.

Record UploadPart := {
  partNumber : Z;
  etag : string;
}.

Record UploadPartResult := {
  upr_partNumber : Z;
  upr_etag : string;
}.

Record UploadResult := {
  ur_etag : option string;
  versionId : option string;
  location : option string;
}.

(** [interface MultipartUploadState] of MultipartOperations. *)
Record MultipartUploadState := {
  st_uploadId : string;
  st_bucket : string;
  st_key : string;
}.

(** ** The wrapped S3 client *)

(** The commands this layer builds, with the fields it fills in. *)
Inductive Command :=
| CreateBucketCommand
    (Bucket : string) (ACL : option string) (LocationConstraint : option string)
| ListBucketsCommand
| HeadBucketCommand (Bucket : string)
| GetObjectCommand
    (Bucket Key : string) (Range : option string)
    (IfModifiedSince IfUnmodifiedSince : option Date)
    (IfMatch IfNoneMatch : option string)
| CreateMultipartUploadCommand
    (Bucket Key : string) (ContentType : option string)
    (Metadata : option (gmap string string))
    (CacheControl ContentDisposition ContentEncoding ACL
     ServerSideEncryption StorageClass : option string)
| UploadPartCommand
    (Bucket Key UploadId : string) (PartNumber : Z) (Body : Buffer)
| CompleteMultipartUploadCommand
    (Bucket Key UploadId : string) (Parts : list (Z * string))
| AbortMultipartUploadCommand (Bucket Key UploadId : string).

Record Bucket := {
  Name : option string;
  CreationDate : option Date;
}.

Record ListBucketsOutput := {
  Buckets : option (list Bucket);
}.

Record GetObjectOutput := {
  Body : option Readable;
  ContentType : option string;
  ContentLength : option Z;
  ETag : option string;
  LastModified : option Date;
  Metadata : option (gmap string string);
}.

Record CreateMultipartUploadOutput := {
  UploadId : option string;
}.

Record UploadPartOutput := {
  part_ETag : option string;
}.

Record CompleteMultipartUploadOutput := {
  done_ETag : option string;
  VersionId : option string;
  Location : option string;
}.

(** The response type of each command. *)
Definition Output (c : Command) : Type :=
  match c with
  | CreateBucketCommand _ _ _ => unit
  | ListBucketsCommand => ListBucketsOutput
  | HeadBucketCommand _ => unit
  | GetObjectCommand _ _ _ _ _ _ _ => GetObjectOutput
  | CreateMultipartUploadCommand _ _ _ _ _ _ _ _ _ _ => CreateMultipartUploadOutput
  | UploadPartCommand _ _ _ _ _ => UploadPartOutput
  | CompleteMultipartUploadCommand _ _ _ _ => CompleteMultipartUploadOutput
  | AbortMultipartUploadCommand _ _ _ => unit
  end.

(** [client.send(command)] over a backend state [B]: it answers or throws,
    and may change the backend. *)
Class S3Client (B : Type) := {
  send : forall c : Command, B -> (JsError + Output c) * B;
}.

(** The configuration [_initializeS3Client] hands to [new S3Client]. *)
Record S3ClientConfig := {
  s3_endpoint : string;
  s3_region : string;
  s3_accessKeyId : string;
  s3_secretAccessKey : string;
  s3_forcePathStyle : bool;
  maxAttempts : Z;
  requestTimeout : Z;
}.

(** ** Observable effects *)

Inductive Level := Debug | Info | Warn | Error.

Inductive MetaValue :=
| MVal (v : JsValue)
| MErr (e : JsError).

Inductive Event :=
| EvLog (level : Level) (msg : string) (meta : list (string * MetaValue))
| EvSend (c : Command)
| EvNewS3Client (cfg : S3ClientConfig).

(** The commands handed to [client.send], oldest first. *)
Definition sent (t : list Event) : list Command :=
  omap (fun e => match e with EvSend c => Some c | _ => None end) t.

(** The S3 clients constructed, oldest first. *)
Definition clients_created (t : list Event) : list S3ClientConfig :=
  omap (fun e => match e with EvNewS3Client c => Some c | _ => None end) t.

(** ** client: configuration merge and construction *)

Definition default_retryPolicy : RetryPolicy :=
  {| rp_maxRetries := 3; retryDelay := 1000; retryDelayMultiplier := 2;
     maxRetryDelay := None; rp_isRetryable := None |}.

(** [_mergeConfig(config)], reading [process.env] as [env]. A logger and a
    retry policy are objects, hence truthy whenever they are given. *)
Definition _mergeConfig (config : FastlyStorageConfig) (env : Env) : RequiredConfig :=
  {| endpoint :=
       string_of (or_string (or_string (cfg_endpoint config) (env !! "FASTLY_ENDPOINT"))
                            (Some ""));
     accessKeyId :=
       string_of (or_string (or_string (cfg_accessKeyId config) (env !! "FASTLY_ACCESS_KEY_ID"))
                            (Some ""));
     secretAccessKey :=
       string_of (or_string (or_string (cfg_secretAccessKey config)
                                       (env !! "FASTLY_SECRET_ACCESS_KEY"))
                            (Some ""));
     region :=
       string_of (or_string (or_string (cfg_region config) (env !! "FASTLY_REGION"))
                            (Some "us-east-1"));
     maxRetries := nullish (cfg_maxRetries config) 3;
     timeout := nullish (cfg_timeout config) 30000;
     logger := nullish (cfg_logger config) DefaultLogger;
     retryPolicy := nullish (cfg_retryPolicy config) default_retryPolicy;
     forcePathStyle := nullish (cfg_forcePathStyle config) true |}.

(** The [clientConfig] literal of [_initializeS3Client()]. *)
Definition clientConfig (config : RequiredConfig) : S3ClientConfig :=
  {| s3_endpoint := endpoint config;
     s3_region := region config;
     s3_accessKeyId := accessKeyId config;
     s3_secretAccessKey := secretAccessKey config;
     s3_forcePathStyle := forcePathStyle config;
     maxAttempts := maxRetries config + 1;
     requestTimeout := timeout config |}.

(** The facade: its merged configuration, its logger and the S3 client it
    owns (known by the configuration it was built from). The four operation
    groups share that client and logger. *)
Record FastlyStorageClient := {
  _config : RequiredConfig;
  _logger : Logger;
  _s3Client : S3ClientConfig;
}.

Section Construction.
Context `{Platform}.

(** [_initializeS3Client()]: [new S3Client(clientConfig)] is an event. *)
Definition _initializeS3Client (config : RequiredConfig) : S3ClientConfig * list Event :=
  (clientConfig config, [EvNewS3Client (clientConfig config)]).

(** [new FastlyStorageClient(config)], with the events of the run.
    [inl e]: the constructor threw [e] and no facade exists. *)
Definition new_FastlyStorageClient
    (config : option FastlyStorageConfig) (env : Env)
  : (FastlyStorageError + FastlyStorageClient) * list Event :=
  let merged := _mergeConfig (nullish config empty_config) env in
  let lg := logger merged in
  match validateConfig merged with
  | inl e => (inl e, [])
  | inr _ =>
      let '(s3, evs) := _initializeS3Client merged in
      (inr {| _config := merged; _logger := lg; _s3Client := s3 |},
       (evs ++ [EvLog Info "Fastly Storage Client initialized"
                  [("endpoint", MVal (VString (endpoint merged)));
                   ("region", MVal (VString (region merged)))]])%list)
  end.

End Construction.

(** ** The operation groups *)

Section Operations.
Context {B : Type} `{!S3Client B}.

(** What an operation can read and change: the backend, the session map of
    MultipartOperations, the clock, and the trace of events so far. *)
Record World := {
  backend : B;
  uploads : gmap string MultipartUploadState;
  clock : Date;
  trace : list Event;
}.

Definition set_backend (b : B) (w : World) : World :=
  {| backend := b; uploads := uploads w; clock := clock w; trace := trace w |}.
Definition set_uploads (u : gmap string MultipartUploadState) (w : World) : World :=
  {| backend := backend w; uploads := u; clock := clock w; trace := trace w |}.
Definition emit (e : Event) (w : World) : World :=
  {| backend := backend w; uploads := uploads w; clock := clock w;
     trace := (trace w ++ [e])%list |}.

(** Computations that may throw. *)
Definition M (A : Type) : Type := World -> (JsError + A) * World.

Definition ret {A} (a : A) : M A := fun w => (inr a, w).
Definition throw {A} (e : JsError) : M A := fun w => (inl e, w).
Definition bind {A C} (m : M A) (k : A -> M C) : M C :=
  fun w => match m w with
           | (inl e, w') => (inl e, w')
           | (inr a, w') => k a w'
           end.
(** [try { m } catch (error) { h error }] *)
Definition try_catch {A} (m : M A) (h : JsError -> M A) : M A :=
  fun w => match m w with
           | (inl e, w') => h e w'
           | (inr a, w') => (inr a, w')
           end.

Definition throw_fastly {A} (e : FastlyStorageError) : M A := throw (OfFastly e).

(** [await this.client.send(command)] *)
Definition client_send (c : Command) : M (Output c) :=
  fun w => let '(r, b) := send c (backend w) in (r, emit (EvSend c) (set_backend b w)).

Definition log (l : Level) (msg : string) (meta : list (string * MetaValue)) : M unit :=
  fun w => (inr tt, emit (EvLog l msg meta) w).

Definition get_uploads : M (gmap string MultipartUploadState) :=
  fun w => (inr (uploads w), w).
Definition put_uploads (u : gmap string MultipartUploadState) : M unit :=
  fun w => (inr tt, set_uploads u w).
(** [new Date()] *)
Definition new_Date : M Date := fun w => (inr (clock w), w).

End Operations.

Arguments World B : clear implicits.
Arguments M B A : clear implicits.

Declare Scope js_scope.
Delimit Scope js_scope with js.
Notation "'let*' x ':=' m 'in' k" := (bind m (fun x => k))
  (at level 10, x name, m at level 100, k at level 200) : js_scope.
Notation "m ';;' k" := (bind m (fun _ => k))
  (at level 100, k at level 200, right associativity) : js_scope.

Definition ctx_string (s : string) : MetaValue := MVal (VString s).
Definition ctx_number (n : Z) : MetaValue := MVal (VNumber n).

(** *** operations/BucketOperations *)

Section BucketOperations.
Context {B : Type} `{!S3Client B}.
Local Open Scope js_scope.

(** The [CreateBucketCommand] literal: a [CreateBucketConfiguration] is
    sent only for a truthy [options?.region]. *)
Definition createBucket_command (name : string) (options : option BucketConfig) : Command :=
  CreateBucketCommand name (options ≫= bc_acl)
    (if truthy_string (options ≫= bc_region) then options ≫= bc_region else None).

Definition createBucket (name : string) (options : option BucketConfig) : M B unit :=
  try_catch
    (log Info "Creating bucket" [("bucket", ctx_string name)];;
     client_send (createBucket_command name options);;
     log Info "Bucket created successfully" [("bucket", ctx_string name)])
    (fun error =>
       log Error "Failed to create bucket" [("bucket", ctx_string name); ("error", MErr error)];;
       throw_fastly
         (fromS3Error error
            (Some {[ "bucket" := VString name; "operation" := VString "createBucket" ]}))).

Definition to_BucketInfo (b : Bucket) : BucketInfo :=
  {| name := Name b; creationDate := CreationDate b |}.

Definition listBuckets : M B (list BucketInfo) :=
  try_catch
    (log Debug "Listing buckets" [];;
     let* response := client_send ListBucketsCommand in
     let buckets := map to_BucketInfo (nullish (Buckets response) []) in
     log Debug "Buckets listed successfully"
       [("count", ctx_number (Z.of_nat (length buckets)))];;
     ret buckets)
    (fun error =>
       log Error "Failed to list buckets" [("error", MErr error)];;
       throw_fastly
         (fromS3Error error (Some {[ "operation" := VString "listBuckets" ]}))).

(** [b.name === name] *)
Definition name_is (n : string) (b : BucketInfo) : bool :=
  bool_decide (name b = Some n).

Definition getBucketInfo (name : string) : M B BucketInfo :=
  try_catch
    (log Debug "Getting bucket info" [("bucket", ctx_string name)];;
     client_send (HeadBucketCommand name);;
     let* buckets := listBuckets in
     match List.find (name_is name) buckets with
     | None =>
         throw_fastly
           (new_FastlyStorageError "Bucket not found" "NOT_FOUND"
              (Some {| opt_statusCode := Some 404;
                       opt_context := Some {[ "bucket" := VString name ]};
                       opt_cause := None |}))
     | Some bucket =>
         log Debug "Bucket info retrieved successfully" [("bucket", ctx_string name)];;
         ret bucket
     end)
    (fun error =>
       log Error "Failed to get bucket info" [("bucket", ctx_string name); ("error", MErr error)];;
       throw_fastly
         (fromS3Error error
            (Some {[ "bucket" := VString name; "operation" := VString "getBucketInfo" ]}))).

End BucketOperations.

(** *** utils/stream and operations/ObjectOperations *)

Section ObjectOperations.
Context {B : Type} `{!S3Client B}.
Local Open Scope js_scope.

(** [await streamToBuffer(stream)]: rejects on ['error'], else resolves
    with the concatenation of the chunks. *)
Definition streamToBuffer (stream : Readable) : M B Buffer :=
  match failure stream with
  | Some e => throw e
  | None => ret (concat (chunks stream))
  end.

Definition get_command (bucket key : string) (options : option GetObjectOptions) : Command :=
  GetObjectCommand bucket key
    (options ≫= range) (options ≫= ifModifiedSince) (options ≫= ifUnmodifiedSince)
    (options ≫= ifMatch) (options ≫= ifNoneMatch).

Definition bucket_key_context (bucket key : string) : gmap string JsValue :=
  {[ "bucket" := VString bucket; "key" := VString key ]}.

Definition empty_body_error (bucket key : string) : FastlyStorageError :=
  new_FastlyStorageError "Empty response body" "EMPTY_BODY"
    (only_context (bucket_key_context bucket key)).

Definition getObject (bucket key : string) (options : option GetObjectOptions)
  : M B DownloadResult :=
  try_catch
    (log Info "Getting object" [("bucket", ctx_string bucket); ("key", ctx_string key)];;
     let* response := client_send (get_command bucket key options) in
     match Body response return M B DownloadResult with
     | None => throw_fastly (empty_body_error bucket key)
     | Some stream =>
         let* body := streamToBuffer stream in
         log Info "Object retrieved successfully"
           [("bucket", ctx_string bucket); ("key", ctx_string key);
            ("size", ctx_number (Z.of_nat (length body)))];;
         let* today := new_Date in
         ret {| dl_body := body;
                dl_contentType := ContentType response;
                dl_contentLength :=
                  if truthy_number (ContentLength response)
                  then nullish (ContentLength response) 0
                  else Z.of_nat (length body);
                dl_etag := string_of (or_string (ETag response) (Some ""));
                dl_lastModified := nullish (LastModified response) today;
                dl_metadata := nullish (Metadata response) ∅ |}
     end)
    (fun error =>
       log Error "Failed to get object"
         [("bucket", ctx_string bucket); ("key", ctx_string key); ("error", MErr error)];;
       throw_fastly
         (fromS3Error error
            (Some (<["operation" := VString "getObject"]> (bucket_key_context bucket key))))).

Definition getObjectStream (bucket key : string) (options : option GetObjectOptions)
  : M B Readable :=
  try_catch
    (log Info "Getting object stream" [("bucket", ctx_string bucket); ("key", ctx_string key)];;
     let* response := client_send (get_command bucket key options) in
     match Body response return M B Readable with
     | None => throw_fastly (empty_body_error bucket key)
     | Some stream =>
         log Info "Object stream retrieved successfully"
           [("bucket", ctx_string bucket); ("key", ctx_string key)];;
         ret stream
     end)
    (fun error =>
       log Error "Failed to get object stream"
         [("bucket", ctx_string bucket); ("key", ctx_string key); ("error", MErr error)];;
       throw_fastly
         (fromS3Error error
            (Some (<["operation" := VString "getObjectStream"]>
                     (bucket_key_context bucket key))))).

End ObjectOperations.

(** *** operations/MultipartOperations *)

Section MultipartOperations.
Context {B : Type} `{!S3Client B}.
Local Open Scope js_scope.

Definition upload_not_found (uploadId : string) : FastlyStorageError :=
  new_FastlyStorageError "Upload ID not found" "UPLOAD_NOT_FOUND"
    (only_context {[ "uploadId" := VString uploadId ]}).

Definition no_upload_id (bucket key : string) : FastlyStorageError :=
  new_FastlyStorageError "No upload ID returned" "NO_UPLOAD_ID"
    (only_context (bucket_key_context bucket key)).

Definition no_etag (uploadId : string) (partNumber : Z) : FastlyStorageError :=
  new_FastlyStorageError "No ETag returned" "NO_ETAG"
    (only_context {[ "uploadId" := VString uploadId; "partNumber" := VNumber partNumber ]}).

(** The [CreateMultipartUploadCommand] literal. *)
Definition create_command (bucket key : string) (options : option UploadObjectOptions)
  : Command :=
  CreateMultipartUploadCommand bucket key
    (options ≫= contentType) (options ≫= metadata)
    (options ≫= cacheControl) (options ≫= contentDisposition)
    (options ≫= contentEncoding) (options ≫= acl)
    (options ≫= serverSideEncryption) (options ≫= storageClass).

Definition createMultipartUpload
    (bucket key : string) (options : option UploadObjectOptions)
  : M B MultipartUploadResult :=
  try_catch
    (log Info "Creating multipart upload"
       [("bucket", ctx_string bucket); ("key", ctx_string key)];;
     let* response := client_send (create_command bucket key options) in
     if negb (truthy_string (UploadId response)) then
       throw_fastly (no_upload_id bucket key)
     else
       let uploadId := string_of (UploadId response) in
       let* tracked := get_uploads in
       put_uploads
         (<[uploadId := {| st_uploadId := uploadId; st_bucket := bucket; st_key := key |}]>
            tracked);;
       log Info "Multipart upload created successfully"
         [("bucket", ctx_string bucket); ("key", ctx_string key);
          ("uploadId", ctx_string uploadId)];;
       ret {| uploadId := uploadId; bucket := bucket; key := key |})
    (fun error =>
       log Error "Failed to create multipart upload"
         [("bucket", ctx_string bucket); ("key", ctx_string key); ("error", MErr error)];;
       throw_fastly
         (fromS3Error error
            (Some (<["operation" := VString "createMultipartUpload"]>
                     (bucket_key_context bucket key))))).

Definition uploadPart (uploadId : string) (partNumber : Z) (data : Buffer)
  : M B UploadPartResult :=
  let* tracked := get_uploads in
  match tracked !! uploadId with
  | None => throw_fastly (upload_not_found uploadId)
  | Some uploadState =>
      try_catch
        (log Debug "Uploading part"
           [("uploadId", ctx_string uploadId); ("partNumber", ctx_number partNumber);
            ("size", ctx_number (Z.of_nat (length data)))];;
         let* response :=
           client_send
             (UploadPartCommand (st_bucket uploadState) (st_key uploadState)
                uploadId partNumber data) in
         if negb (truthy_string (part_ETag response)) then
           throw_fastly (no_etag uploadId partNumber)
         else
           log Debug "Part uploaded successfully"
             [("uploadId", ctx_string uploadId); ("partNumber", ctx_number partNumber);
              ("etag", ctx_string (string_of (part_ETag response)))];;
           ret {| upr_partNumber := partNumber;
                  upr_etag := string_of (part_ETag response) |})
        (fun error =>
           log Error "Failed to upload part"
             [("uploadId", ctx_string uploadId); ("partNumber", ctx_number partNumber);
              ("error", MErr error)];;
           throw_fastly
             (fromS3Error error
                (Some {[ "uploadId" := VString uploadId;
                         "partNumber" := VNumber partNumber;
                         "operation" := VString "uploadPart" ]})))
  end.

Definition completed_part (part : UploadPart) : Z * string :=
  (partNumber part, etag part).

Definition completeMultipartUpload (uploadId : string) (parts : list UploadPart)
  : M B UploadResult :=
  let* tracked := get_uploads in
  match tracked !! uploadId with
  | None => throw_fastly (upload_not_found uploadId)
  | Some uploadState =>
      try_catch
        (log Info "Completing multipart upload"
           [("uploadId", ctx_string uploadId);
            ("partCount", ctx_number (Z.of_nat (length parts)))];;
         let* response :=
           client_send
             (CompleteMultipartUploadCommand (st_bucket uploadState) (st_key uploadState)
                uploadId (map completed_part parts)) in
         let* current := get_uploads in
         put_uploads (delete uploadId current);;
         log Info "Multipart upload completed successfully"
           [("uploadId", ctx_string uploadId);
            ("location", MVal (of_opt_string (Location response)))];;
         ret {| ur_etag := done_ETag response;
                versionId := VersionId response;
                location := Location response |})
        (fun error =>
           log Error "Failed to complete multipart upload"
             [("uploadId", ctx_string uploadId); ("error", MErr error)];;
           throw_fastly
             (fromS3Error error
                (Some {[ "uploadId" := VString uploadId;
                         "operation" := VString "completeMultipartUpload" ]})))
  end.

Definition abortMultipartUpload (uploadId : string) : M B unit :=
  let* tracked := get_uploads in
  match tracked !! uploadId with
  | None => throw_fastly (upload_not_found uploadId)
  | Some uploadState =>
      try_catch
        (log Info "Aborting multipart upload" [("uploadId", ctx_string uploadId)];;
         client_send
           (AbortMultipartUploadCommand (st_bucket uploadState) (st_key uploadState)
              uploadId);;
         let* current := get_uploads in
         put_uploads (delete uploadId current);;
         log Info "Multipart upload aborted successfully" [("uploadId", ctx_string uploadId)])
        (fun error =>
           log Error "Failed to abort multipart upload"
             [("uploadId", ctx_string uploadId); ("error", MErr error)];;
           throw_fastly
             (fromS3Error error
                (Some {[ "uploadId" := VString uploadId;
                         "operation" := VString "abortMultipartUpload" ]})))
  end.

(** A call on the multipart group, and what it returns. *)
Inductive MultipartCall :=
| CallCreate (bucket key : string) (options : option UploadObjectOptions)
| CallUploadPart (uploadId : string) (partNumber : Z) (data : Buffer)
| CallComplete (uploadId : string) (parts : list UploadPart)
| CallAbort (uploadId : string).

Inductive MultipartReturn :=
| Created (r : MultipartUploadResult)
| PartUploaded (r : UploadPartResult)
| Completed (r : UploadResult)
| Aborted.

Definition fmap_M {A C} (f : A -> C) (m : M B A) : M B C :=
  let* a := m in ret (f a).

Definition run (c : MultipartCall) : M B MultipartReturn :=
  match c with
  | CallCreate bucket key options =>
      fmap_M Created (createMultipartUpload bucket key options)
  | CallUploadPart uploadId partNumber data =>
      fmap_M PartUploaded (uploadPart uploadId partNumber data)
  | CallComplete uploadId parts =>
      fmap_M Completed (completeMultipartUpload uploadId parts)
  | CallAbort uploadId =>
      fmap_M (fun _ => Aborted) (abortMultipartUpload uploadId)
  end.

(** A sequence of calls, each run whatever the previous one did. *)
Fixpoint run_all (cs : list MultipartCall) (w : World B) : World B :=
  match cs with
  | [] => w
  | c :: cs' => run_all cs' (run c w).2
  end.

End MultipartOperations.

Section MultipartHistory.
Context {B : Type} `{!S3Client B}.

(** What each call of a sequence returned or threw, in order. *)
Fixpoint results (cs : list MultipartCall) (w : World B)
  : list (JsError + MultipartReturn) :=
  match cs with
  | [] => []
  | c :: cs' => (run c w).1 :: results cs' (run c w).2
  end.


(** The call completes or aborts upload [id]. *)
Definition finishes (id : string) (c : MultipartCall) : Prop :=
  match c with
  | CallComplete i _ => i = id
  | CallAbort i => i = id
  | _ => False
  end.

(** The command through which the backend is asked to finish upload [id]
    for the call [c], given the tracked session [s]. *)
Definition finishing_command (s : MultipartUploadState) (c : MultipartCall)
  : option Command :=
  match c with
  | CallComplete i parts =>
      Some (CompleteMultipartUploadCommand (st_bucket s) (st_key s) i
              (map completed_part parts))
  | CallAbort i => Some (AbortMultipartUploadCommand (st_bucket s) (st_key s) i)
  | _ => None
  end.


End MultipartHistory.

(** ** The specification's wording, for comparison with the code *)

Module AsStated.

(** "each explicit field if present, else the same-purpose environment
    variable, else the hardcoded default". *)
Definition pick {A} (explicit env : option A) (default : A) : A :=
  match explicit, env with
  | Some v, _ => v
  | None, Some v => v
  | None, None => default
  end.

Definition mergeConfig (config : FastlyStorageConfig) (env : Env) : RequiredConfig :=
  {| endpoint := pick (cfg_endpoint config) (env !! "FASTLY_ENDPOINT") "";
     accessKeyId := pick (cfg_accessKeyId config) (env !! "FASTLY_ACCESS_KEY_ID") "";
     secretAccessKey :=
       pick (cfg_secretAccessKey config) (env !! "FASTLY_SECRET_ACCESS_KEY") "";
     region := pick (cfg_region config) (env !! "FASTLY_REGION") "us-east-1";
     maxRetries := pick (cfg_maxRetries config) None 3;
     timeout := pick (cfg_timeout config) None 30000;
     logger := pick (cfg_logger config) None DefaultLogger;
     retryPolicy := pick (cfg_retryPolicy config) None default_retryPolicy;
     forcePathStyle := pick (cfg_forcePathStyle config) None true |}.

(** "3-63 characters, matches [^[a-z0-9][a-z0-9.-]*[a-z0-9]$], and
    contains no consecutive dots", spelled out on the characters. *)
Definition well_formed_bucket_name (name : string) : Prop :=
  let cs := list_ascii_of_string name in
  (3 <= length cs <= 63)%nat /\
  (exists first middle last,
      cs = first :: middle ++ [last] /\
      RegExp.lower_or_digit first = true /\
      Forall (fun c => RegExp.lower_digit_dot_hyphen c = true) middle /\
      RegExp.lower_or_digit last = true) /\
  ~ (exists before after, cs = before ++ "."%char :: "."%char :: after).

End AsStated.

(** How the code resolves a string setting: the first non-empty one of the
    explicit field and the environment variable, else the default. *)
Inductive Resolved (explicit env : option string) (default : string) : string -> Prop :=
| Resolved_explicit s :
    explicit = Some s -> s <> "" -> Resolved explicit env default s
| Resolved_env s :
    truthy_string explicit = false -> env = Some s -> s <> "" ->
    Resolved explicit env default s
| Resolved_default :
    truthy_string explicit = false -> truthy_string env = false ->
    Resolved explicit env default default.

(** The language of a regular expression. *)
Inductive lang : RegExp.regex -> list ascii -> Prop :=
| lang_Eps : lang RegExp.Eps []
| lang_Class p c : p c = true -> lang (RegExp.Class p) [c]
| lang_Cat r1 r2 s1 s2 :
    lang r1 s1 -> lang r2 s2 -> lang (RegExp.Cat r1 r2) (s1 ++ s2)
| lang_Alt_l r1 r2 s : lang r1 s -> lang (RegExp.Alt r1 r2) s
| lang_Alt_r r1 r2 s : lang r2 s -> lang (RegExp.Alt r1 r2) s
| lang_Star_nil r : lang (RegExp.Star r) []
| lang_Star_more r s1 s2 :
    lang r s1 -> lang (RegExp.Star r) s2 -> lang (RegExp.Star r) (s1 ++ s2).

(** ** Concrete collaborators for the examples *)

Module Demo.

(** A backend that gives the same scripted answer to every command of a
    kind and keeps no state of its own. *)
Record Script := {
  on_createBucket : JsError + unit;
  on_listBuckets : JsError + ListBucketsOutput;
  on_headBucket : JsError + unit;
  on_getObject : JsError + GetObjectOutput;
  on_createMultipartUpload : JsError + CreateMultipartUploadOutput;
  on_uploadPart : JsError + UploadPartOutput;
  on_completeMultipartUpload : JsError + CompleteMultipartUploadOutput;
  on_abortMultipartUpload : JsError + unit;
}.

Definition answer (c : Command) (s : Script) : JsError + Output c :=
  match c as c0 return JsError + Output c0 with
  | CreateBucketCommand _ _ _ => on_createBucket s
  | ListBucketsCommand => on_listBuckets s
  | HeadBucketCommand _ => on_headBucket s
  | GetObjectCommand _ _ _ _ _ _ _ => on_getObject s
  | CreateMultipartUploadCommand _ _ _ _ _ _ _ _ _ _ => on_createMultipartUpload s
  | UploadPartCommand _ _ _ _ _ => on_uploadPart s
  | CompleteMultipartUploadCommand _ _ _ _ => on_completeMultipartUpload s
  | AbortMultipartUploadCommand _ _ _ => on_abortMultipartUpload s
  end.

#[global] Instance scripted : S3Client Script :=
  {| send c s := (answer c s, s) |}.

(** Every command succeeds; responses carry no optional field. *)
Definition bare : Script :=
  {| on_createBucket := inr tt;
     on_listBuckets := inr {| Buckets := Some [] |};
     on_headBucket := inr tt;
     on_getObject :=
       inr {| Body := None; ContentType := None; ContentLength := None;
              ETag := None; LastModified := None; Metadata := None |};
     on_createMultipartUpload := inr {| UploadId := None |};
     on_uploadPart := inr {| part_ETag := None |};
     on_completeMultipartUpload :=
       inr {| done_ETag := Some "etag-1"; VersionId := None; Location := None |};
     on_abortMultipartUpload := inr tt |}.

(** A backend that issues upload id "upload-1" and answers every command
    in full. *)
Definition issuing : Script :=
  {| on_createBucket := inr tt;
     on_listBuckets :=
       inr {| Buckets := Some [ {| Name := Some "valid-bucket"; CreationDate := Some 0 |} ] |};
     on_headBucket := inr tt;
     on_getObject :=
       inr {| Body := Some {| chunks := [[Byte.x68; Byte.x69]]; failure := None |};
              ContentType := Some "text/plain"; ContentLength := Some 2;
              ETag := Some "etag-f"; LastModified := Some 0; Metadata := None |};
     on_createMultipartUpload := inr {| UploadId := Some "upload-1" |};
     on_uploadPart := inr {| part_ETag := Some "etag-p" |};
     on_completeMultipartUpload :=
       inr {| done_ETag := Some "etag-1"; VersionId := None;
              Location := Some "https://x/valid-bucket/big.bin" |};
     on_abortMultipartUpload := inr tt |}.



Definition session_1 : MultipartUploadState :=
  {| st_uploadId := "upload-1"; st_bucket := "valid-bucket"; st_key := "big.bin" |}.

(** A fresh client: nothing tracked, nothing logged or sent yet. *)
Definition fresh (s : Script) : World Script :=
  {| backend := s; uploads := ∅; clock := 0; trace := [] |}.

(** A client tracking one upload. *)
Definition tracking_1 (s : Script) : World Script :=
  {| backend := s; uploads := {[ "upload-1" := session_1 ]}; clock := 0; trace := [] |}.

(** A stand-in for the platform's URL parser, for the examples only: it
    accepts the strings that start with the scheme [https:]. *)
Definition https_only : Platform :=
  {| URL_parses s := String.prefix "https:" s |}.

Definition scenario_config : FastlyStorageConfig :=
  {| cfg_endpoint := Some "https://x"; cfg_accessKeyId := Some "k";
     cfg_secretAccessKey := Some "s"; cfg_region := None; cfg_maxRetries := None;
     cfg_timeout := None; cfg_logger := None; cfg_retryPolicy := None;
     cfg_forcePathStyle := None |}.

(** The same, asking for no retry at all. *)
Definition no_retry_config : FastlyStorageConfig :=
  {| cfg_endpoint := Some "https://x"; cfg_accessKeyId := Some "k";
     cfg_secretAccessKey := Some "s"; cfg_region := None; cfg_maxRetries := Some 0;
     cfg_timeout := None; cfg_logger := None; cfg_retryPolicy := None;
     cfg_forcePathStyle := None |}.

(** An explicit but empty region, with the variable set in the environment. *)
Definition blank_region_config : FastlyStorageConfig :=
  {| cfg_endpoint := Some "https://x"; cfg_accessKeyId := Some "k";
     cfg_secretAccessKey := Some "s"; cfg_region := Some ""; cfg_maxRetries := None;
     cfg_timeout := None; cfg_logger := None; cfg_retryPolicy := None;
     cfg_forcePathStyle := None |}.

Definition region_env : Env := {[ "FASTLY_REGION" := "eu-west-1" ]}.

(** What [validateBucketName] says of a name. *)
Definition verdict (name : string) : string :=
  match validateBucketName name with
  | inl e => code e
  | inr _ => "accepted"
  end.

(** An error that carries an HTTP status. *)
Definition with_status (cd : string) (status : Z) : FastlyStorageError :=
  new_FastlyStorageError "failed" cd
    (Some {| opt_statusCode := Some status; opt_context := None; opt_cause := None |}).

End Demo.

(** ** The rest of the code base *)

(** *** utils/validation: object keys *)

Definition key_context (key : string) : gmap string JsValue :=
  {[ "key" := VString key; "length" := VNumber (Z.of_nat (String.length key)) ]}.

(** [validateObjectKey(key)]: [inl e] when it throws [e]. *)
Definition validateObjectKey (key : string) : FastlyStorageError + unit :=
  if negb (truthy_string (Some key)) then
    inl (new_FastlyStorageError "Object key is required" "INVALID_OBJECT_KEY" None)
  else if (1024 <? String.length key)%nat then
    inl (new_FastlyStorageError
           "Object key must not exceed 1024 characters"
           "INVALID_OBJECT_KEY" (only_context (key_context key)))
  else inr tt.

(** *** utils/stream *)

(** [bufferToStream(buffer)]: [push(buffer); push(null)]. A stream delivers
    no ['data'] event for an empty chunk. *)
Definition bufferToStream (buffer : Buffer) : Readable :=
  {| chunks := match buffer with [] => [] | _ => [buffer] end; failure := None |}.

(** *** utils/logger *)

Inductive ConsoleMethod := ConsoleLog | ConsoleWarn | ConsoleError.

(** One call on [console]: the method, the first argument, and the [meta]
    handed to [JSON.stringify] ([None] when the second argument is ['']).
    A call without [meta] is a call with the empty list. *)
Record ConsoleCall := {
  console_method : ConsoleMethod;
  console_text : string;
  console_meta : option (list (string * MetaValue));
}.

Definition stringified (meta : list (string * MetaValue))
  : option (list (string * MetaValue)) :=
  match meta with [] => None | _ => Some meta end.

(** The four methods of [DefaultLogger], reading [process.env.DEBUG] at the
    time of the call. *)
Definition DefaultLogger_call
    (env : Env) (l : Level) (msg : string) (meta : list (string * MetaValue))
  : list ConsoleCall :=
  match l with
  | Debug =>
      if truthy_string (env !! "DEBUG")
      then [ {| console_method := ConsoleLog; console_text := String.append "[DEBUG] " msg;
                console_meta := stringified meta |} ]
      else []
  | Info =>
      if truthy_string (env !! "DEBUG")
      then [ {| console_method := ConsoleLog; console_text := String.append "[INFO] " msg;
                console_meta := stringified meta |} ]
      else []
  | Warn =>
      [ {| console_method := ConsoleWarn; console_text := String.append "[WARN] " msg;
           console_meta := stringified meta |} ]
  | Error =>
      [ {| console_method := ConsoleError; console_text := String.append "[ERROR] " msg;
           console_meta := stringified meta |} ]
  end.

(** What the default logger prints for the events of a trace. *)
Definition console_output (env : Env) (t : list Event) : list ConsoleCall :=
  flat_map (fun e => match e with
                     | EvLog l msg meta => DefaultLogger_call env l msg meta
                     | _ => []
                     end) t.

(** *** types: the remaining options and results *)

(** [UploadData = Buffer | Readable | Blob | string] *)
Inductive UploadData :=
| BufferData (b : Buffer)
| ReadableData (r : Readable)
| BlobData (b : Buffer)
| StringData (s : string).

Record CopyObjectOptions := {
  metadataDirective : option string;
  co_metadata : option (gmap string string);
  co_contentType : option string;
  co_acl : option string;
  copySourceIfModifiedSince : option Date;
  copySourceIfUnmodifiedSince : option Date;
}.

Record ListObjectsOptions := {
  lo_prefix : option string;
  delimiter : option string;
  lo_maxKeys : option Z;
  continuationToken : option string;
  startAfter : option string;
}.

(** The [UploadResult] literal of [uploadObject]. *)
Record UploadObjectResult := {
  uo_etag : option string;
  uo_versionId : option string;
  uo_serverSideEncryption : option string;
}.

Record ObjectMetadata := {
  om_contentType : option string;
  om_contentLength : Z;
  om_lastModified : Date;
  om_etag : string;
  om_metadata : gmap string string;
  om_cacheControl : option string;
  om_contentDisposition : option string;
  om_contentEncoding : option string;
  om_versionId : option string;
  om_storageClass : option string;
}.

Record ObjectOwner := {
  owner_id : option string;
  owner_displayName : option string;
}.

(** [ObjectInfo]; the non-null assertions on the response fields are
    erased, so each may be [undefined] at run time. *)
Record ObjectInfo := {
  oi_key : option string;
  oi_lastModified : option Date;
  oi_etag : option string;
  oi_size : option Z;
  oi_storageClass : option string;
  oi_owner : option ObjectOwner;
}.

Record ListObjectsResult := {
  contents : list ObjectInfo;
  commonPrefixes : list (option string);
  isTruncated : bool;
  nextContinuationToken : option string;
  lr_name : option string;
  lr_prefix : option string;
  lr_maxKeys : option Z;
  keyCount : option Z;
}.

(** *** The wrapped S3 client: the remaining commands *)

Inductive ObjectCommand :=
| DeleteBucketCommand (Bucket : string)
| PutObjectCommand
    (Bucket Key : string) (Body : option UploadData) (ContentType : option string)
    (Metadata : option (gmap string string))
    (CacheControl ContentDisposition ContentEncoding ACL
     ServerSideEncryption StorageClass : option string)
| DeleteObjectCommand (Bucket Key : string)
| CopyObjectCommand
    (Bucket Key CopySource : string) (MetadataDirective : option string)
    (Metadata : option (gmap string string)) (ContentType ACL : option string)
    (CopySourceIfModifiedSince CopySourceIfUnmodifiedSince : option Date)
| HeadObjectCommand (Bucket Key : string)
| ListObjectsV2Command
    (Bucket : string) (Prefix Delimiter : option string) (MaxKeys : option Z)
    (ContinuationToken StartAfter : option string).

Record PutObjectOutput := {
  put_ETag : option string;
  put_VersionId : option string;
  put_ServerSideEncryption : option string;
}.

Record CopyResult := {
  copy_ETag : option string;
}.

Record CopyObjectOutput := {
  CopyObjectResult : option CopyResult;
  copy_VersionId : option string;
}.

Record HeadObjectOutput := {
  head_ContentType : option string;
  head_ContentLength : option Z;
  head_LastModified : option Date;
  head_ETag : option string;
  head_Metadata : option (gmap string string);
  head_CacheControl : option string;
  head_ContentDisposition : option string;
  head_ContentEncoding : option string;
  head_VersionId : option string;
  head_StorageClass : option string;
}.

Record Owner := {
  ID : option string;
  DisplayName : option string;
}.

Record S3Object := {
  obj_Key : option string;
  obj_LastModified : option Date;
  obj_ETag : option string;
  obj_Size : option Z;
  obj_StorageClass : option string;
  obj_Owner : option Owner;
}.

Record CommonPrefix := {
  Prefix : option string;
}.

Record ListObjectsV2Output := {
  Contents : option (list S3Object);
  CommonPrefixes : option (list CommonPrefix);
  IsTruncated : option bool;
  NextContinuationToken : option string;
  list_Name : option string;
  list_Prefix : option string;
  list_MaxKeys : option Z;
  KeyCount : option Z;
}.

Definition ObjectOutput (c : ObjectCommand) : Type :=
  match c with
  | DeleteBucketCommand _ => unit
  | PutObjectCommand _ _ _ _ _ _ _ _ _ _ _ => PutObjectOutput
  | DeleteObjectCommand _ _ => unit
  | CopyObjectCommand _ _ _ _ _ _ _ _ _ => CopyObjectOutput
  | HeadObjectCommand _ _ => HeadObjectOutput
  | ListObjectsV2Command _ _ _ _ _ _ => ListObjectsV2Output
  end.

(** [client.send] on the remaining commands, and the request signer of
    [@aws-sdk/s3-request-presigner], over the same backend state. *)
Class S3ObjectClient (B : Type) := {
  send_object : forall c : ObjectCommand, B -> (JsError + ObjectOutput c) * B;
  getSignedUrl : Command + ObjectCommand -> Z -> B -> (JsError + string) * B;
}.

(** *** operations: the remaining bucket and object operations *)

Section MoreOperations.
Context {B : Type} `{!S3Client B} `{!S3ObjectClient B}.
Local Open Scope js_scope.

(** [await this.client.send(command)] for the remaining commands. The
    request shows in what it does to the backend. *)
Definition object_send (c : ObjectCommand) : M B (ObjectOutput c) :=
  fun w => let '(r, b) := send_object c (backend w) in (r, set_backend b w).

(** [await getSignedUrl(this.client, command, { expiresIn })] *)
Definition sign (c : Command + ObjectCommand) (expiresIn : Z) : M B string :=
  fun w => let '(r, b) := getSignedUrl c expiresIn (backend w) in (r, set_backend b w).

Definition deleteBucket (name : string) : M B unit :=
  try_catch
    (log Info "Deleting bucket" [("bucket", ctx_string name)];;
     object_send (DeleteBucketCommand name);;
     log Info "Bucket deleted successfully" [("bucket", ctx_string name)])
    (fun error =>
       log Error "Failed to delete bucket" [("bucket", ctx_string name); ("error", MErr error)];;
       throw_fastly
         (fromS3Error error
            (Some {[ "bucket" := VString name; "operation" := VString "deleteBucket" ]}))).

(** The [PutObjectCommand] literal of [uploadObject]. *)
Definition put_command
    (bucket key : string) (data : UploadData) (options : option UploadObjectOptions)
  : ObjectCommand :=
  PutObjectCommand bucket key (Some data)
    (options ≫= contentType) (options ≫= metadata)
    (options ≫= cacheControl) (options ≫= contentDisposition)
    (options ≫= contentEncoding) (options ≫= acl)
    (options ≫= serverSideEncryption) (options ≫= storageClass).

Definition uploadObject
    (bucket key : string) (data : UploadData) (options : option UploadObjectOptions)
  : M B UploadObjectResult :=
  try_catch
    (log Info "Uploading object" [("bucket", ctx_string bucket); ("key", ctx_string key)];;
     let* response := object_send (put_command bucket key data options) in
     log Info "Object uploaded successfully"
       [("bucket", ctx_string bucket); ("key", ctx_string key);
        ("etag", MVal (of_opt_string (put_ETag response)))];;
     ret {| uo_etag := put_ETag response;
            uo_versionId := put_VersionId response;
            uo_serverSideEncryption := put_ServerSideEncryption response |})
    (fun error =>
       log Error "Failed to upload object"
         [("bucket", ctx_string bucket); ("key", ctx_string key); ("error", MErr error)];;
       throw_fastly
         (fromS3Error error
            (Some (<["operation" := VString "uploadObject"]> (bucket_key_context bucket key))))).

Definition deleteObject (bucket key : string) : M B unit :=
  try_catch
    (log Info "Deleting object" [("bucket", ctx_string bucket); ("key", ctx_string key)];;
     object_send (DeleteObjectCommand bucket key);;
     log Info "Object deleted successfully"
       [("bucket", ctx_string bucket); ("key", ctx_string key)])
    (fun error =>
       log Error "Failed to delete object"
         [("bucket", ctx_string bucket); ("key", ctx_string key); ("error", MErr error)];;
       throw_fastly
         (fromS3Error error
            (Some (<["operation" := VString "deleteObject"]> (bucket_key_context bucket key))))).

(** [`${sourceBucket}/${sourceKey}`] *)
Definition copy_source (sourceBucket sourceKey : string) : string :=
  String.append sourceBucket (String.append "/" sourceKey).

Definition copy_command
    (sourceBucket sourceKey destBucket destKey : string) (options : option CopyObjectOptions)
  : ObjectCommand :=
  CopyObjectCommand destBucket destKey (copy_source sourceBucket sourceKey)
    (options ≫= metadataDirective) (options ≫= co_metadata)
    (options ≫= co_contentType) (options ≫= co_acl)
    (options ≫= copySourceIfModifiedSince) (options ≫= copySourceIfUnmodifiedSince).

Definition copy_meta (sourceBucket sourceKey destBucket destKey : string)
  : list (string * MetaValue) :=
  [("sourceBucket", ctx_string sourceBucket); ("sourceKey", ctx_string sourceKey);
   ("destBucket", ctx_string destBucket); ("destKey", ctx_string destKey)].

Definition copy_context (sourceBucket sourceKey destBucket destKey : string)
  : gmap string JsValue :=
  {[ "sourceBucket" := VString sourceBucket; "sourceKey" := VString sourceKey;
     "destBucket" := VString destBucket; "destKey" := VString destKey;
     "operation" := VString "copyObject" ]}.

Definition copyObject
    (sourceBucket sourceKey destBucket destKey : string) (options : option CopyObjectOptions)
  : M B UploadResult :=
  try_catch
    (log Info "Copying object" (copy_meta sourceBucket sourceKey destBucket destKey);;
     let* response :=
       object_send (copy_command sourceBucket sourceKey destBucket destKey options) in
     log Info "Object copied successfully"
       (copy_meta sourceBucket sourceKey destBucket destKey);;
     ret {| ur_etag := CopyObjectResult response ≫= copy_ETag;
            versionId := copy_VersionId response;
            location := None |})
    (fun error =>
       log Error "Failed to copy object"
         (copy_meta sourceBucket sourceKey destBucket destKey ++ [("error", MErr error)]);;
       throw_fastly
         (fromS3Error error
            (Some (copy_context sourceBucket sourceKey destBucket destKey)))).

Definition headObject (bucket key : string) : M B ObjectMetadata :=
  try_catch
    (log Debug "Getting object metadata"
       [("bucket", ctx_string bucket); ("key", ctx_string key)];;
     let* response := object_send (HeadObjectCommand bucket key) in
     log Debug "Object metadata retrieved successfully"
       [("bucket", ctx_string bucket); ("key", ctx_string key)];;
     let* today := new_Date in
     ret {| om_contentType := head_ContentType response;
            om_contentLength :=
              if truthy_number (head_ContentLength response)
              then nullish (head_ContentLength response) 0
              else 0;
            om_lastModified := nullish (head_LastModified response) today;
            om_etag := string_of (or_string (head_ETag response) (Some ""));
            om_metadata := nullish (head_Metadata response) ∅;
            om_cacheControl := head_CacheControl response;
            om_contentDisposition := head_ContentDisposition response;
            om_contentEncoding := head_ContentEncoding response;
            om_versionId := head_VersionId response;
            om_storageClass := head_StorageClass response |})
    (fun error =>
       log Error "Failed to get object metadata"
         [("bucket", ctx_string bucket); ("key", ctx_string key); ("error", MErr error)];;
       throw_fastly
         (fromS3Error error
            (Some (<["operation" := VString "headObject"]> (bucket_key_context bucket key))))).

Definition list_command (bucket : string) (options : option ListObjectsOptions)
  : ObjectCommand :=
  ListObjectsV2Command bucket
    (options ≫= lo_prefix) (options ≫= delimiter) (options ≫= lo_maxKeys)
    (options ≫= continuationToken) (options ≫= startAfter).

Definition to_ObjectOwner (o : Owner) : ObjectOwner :=
  {| owner_id := ID o; owner_displayName := DisplayName o |}.

Definition to_ObjectInfo (obj : S3Object) : ObjectInfo :=
  {| oi_key := obj_Key obj;
     oi_lastModified := obj_LastModified obj;
     oi_etag := obj_ETag obj;
     oi_size := obj_Size obj;
     oi_storageClass := obj_StorageClass obj;
     oi_owner := to_ObjectOwner <$> obj_Owner obj |}.

(** The [options] object as log metadata, one entry per field. *)
Definition options_meta (options : option ListObjectsOptions) : list (string * MetaValue) :=
  match options with
  | None => [("options", MVal VUndefined)]
  | Some o =>
      [("options.prefix", MVal (of_opt_string (lo_prefix o)));
       ("options.delimiter", MVal (of_opt_string (delimiter o)));
       ("options.maxKeys",
        MVal (match lo_maxKeys o with Some n => VNumber n | None => VUndefined end));
       ("options.continuationToken", MVal (of_opt_string (continuationToken o)));
       ("options.startAfter", MVal (of_opt_string (startAfter o)))]
  end.

Definition listObjects (bucket : string) (options : option ListObjectsOptions)
  : M B ListObjectsResult :=
  try_catch
    (log Debug "Listing objects" (("bucket", ctx_string bucket) :: options_meta options);;
     let* response := object_send (list_command bucket options) in
     let result :=
       {| contents := map to_ObjectInfo (nullish (Contents response) []);
          commonPrefixes := map Prefix (nullish (CommonPrefixes response) []);
          isTruncated := nullish (IsTruncated response) false;
          nextContinuationToken := NextContinuationToken response;
          lr_name := list_Name response;
          lr_prefix := list_Prefix response;
          lr_maxKeys := list_MaxKeys response;
          keyCount := KeyCount response |} in
     log Debug "Objects listed successfully"
       [("bucket", ctx_string bucket);
        ("count", ctx_number (Z.of_nat (length (contents result))))];;
     ret result)
    (fun error =>
       log Error "Failed to list objects" [("bucket", ctx_string bucket); ("error", MErr error)];;
       throw_fastly
         (fromS3Error error
            (Some {[ "bucket" := VString bucket; "operation" := VString "listObjects" ]}))).

(** *** operations/PresignedUrlOperations *)

Definition getPresignedDownloadUrl (bucket key : string) (expiresIn : Z) : M B string :=
  try_catch
    (sign (inl (GetObjectCommand bucket key None None None None None)) expiresIn)
    (fun error =>
       throw_fastly
         (fromS3Error error
            (Some (<["operation" := VString "getPresignedDownloadUrl"]>
                     (bucket_key_context bucket key))))).

Definition getPresignedUploadUrl (bucket key : string) (expiresIn : Z) : M B string :=
  try_catch
    (sign (inr (PutObjectCommand bucket key None None None None None None None None None))
       expiresIn)
    (fun error =>
       throw_fastly
         (fromS3Error error
            (Some (<["operation" := VString "getPresignedUploadUrl"]>
                     (bucket_key_context bucket key))))).

(** *** client: the public methods *)

(** A call of a public method of the facade; each delegates to its
    operation group. *)
Inductive MethodCall :=
| Call_createBucket (name : string) (options : option BucketConfig)
| Call_deleteBucket (name : string)
| Call_listBuckets
| Call_getBucketInfo (name : string)
| Call_uploadObject (bucket key : string) (data : UploadData)
    (options : option UploadObjectOptions)
| Call_getObject (bucket key : string) (options : option GetObjectOptions)
| Call_getObjectStream (bucket key : string) (options : option GetObjectOptions)
| Call_deleteObject (bucket key : string)
| Call_copyObject (sourceBucket sourceKey destBucket destKey : string)
    (options : option CopyObjectOptions)
| Call_headObject (bucket key : string)
| Call_listObjects (bucket : string) (options : option ListObjectsOptions)
| Call_multipart (c : MultipartCall)
| Call_getPresignedDownloadUrl (bucket key : string) (expiresIn : Z)
| Call_getPresignedUploadUrl (bucket key : string) (expiresIn : Z).

Inductive MethodReturn :=
| Void
| ReturnedBuckets (r : list BucketInfo)
| ReturnedBucket (r : BucketInfo)
| ReturnedUpload (r : UploadObjectResult)
| ReturnedDownload (r : DownloadResult)
| ReturnedStream (r : Readable)
| ReturnedCopy (r : UploadResult)
| ReturnedMetadata (r : ObjectMetadata)
| ReturnedListing (r : ListObjectsResult)
| ReturnedMultipart (r : MultipartReturn)
| ReturnedUrl (r : string).

Definition invoke (c : MethodCall) : M B MethodReturn :=
  match c with
  | Call_createBucket name options => fmap_M (fun _ => Void) (createBucket name options)
  | Call_deleteBucket name => fmap_M (fun _ => Void) (deleteBucket name)
  | Call_listBuckets => fmap_M ReturnedBuckets listBuckets
  | Call_getBucketInfo name => fmap_M ReturnedBucket (getBucketInfo name)
  | Call_uploadObject bucket key data options =>
      fmap_M ReturnedUpload (uploadObject bucket key data options)
  | Call_getObject bucket key options => fmap_M ReturnedDownload (getObject bucket key options)
  | Call_getObjectStream bucket key options =>
      fmap_M ReturnedStream (getObjectStream bucket key options)
  | Call_deleteObject bucket key => fmap_M (fun _ => Void) (deleteObject bucket key)
  | Call_copyObject sourceBucket sourceKey destBucket destKey options =>
      fmap_M ReturnedCopy (copyObject sourceBucket sourceKey destBucket destKey options)
  | Call_headObject bucket key => fmap_M ReturnedMetadata (headObject bucket key)
  | Call_listObjects bucket options => fmap_M ReturnedListing (listObjects bucket options)
  | Call_multipart c => fmap_M ReturnedMultipart (run c)
  | Call_getPresignedDownloadUrl bucket key expiresIn =>
      fmap_M ReturnedUrl (getPresignedDownloadUrl bucket key expiresIn)
  | Call_getPresignedUploadUrl bucket key expiresIn =>
      fmap_M ReturnedUrl (getPresignedUploadUrl bucket key expiresIn)
  end.

End MoreOperations.

(** *** A backend that stores what it is given, for the examples *)

Module Store.

Record Stored := {
  stored_body : Buffer;
  stored_type : option string;
}.

(** The objects held, by bucket and key. *)
Record State := {
  objects : gmap (string * string) Stored;
}.

Definition no_such_key : JsError :=
  SdkError "NoSuchKey" "The specified key does not exist."
    (Some {| httpStatusCode := Some 404; requestId := Some "req-1" |}).

Definition bucket_not_empty : JsError :=
  SdkError "BucketNotEmpty" "The bucket you tried to delete is not empty."
    (Some {| httpStatusCode := Some 409; requestId := Some "req-2" |}).

Definition bytes_of (data : option UploadData) : JsError + Buffer :=
  match data with
  | None => inr []
  | Some (BufferData b) => inr b
  | Some (BlobData b) => inr b
  | Some (StringData s) => inr (list_byte_of_string s)
  | Some (ReadableData r) =>
      match failure r with
      | Some e => inl e
      | None => inr (concat (chunks r))
      end
  end.

Definition in_bucket (bucket : string) (entry : string * string * Stored) : bool :=
  String.eqb entry.1.1 bucket.

Definition listed (entry : string * string * Stored) : S3Object :=
  {| obj_Key := Some entry.1.2; obj_LastModified := Some 0; obj_ETag := Some "etag";
     obj_Size := Some (Z.of_nat (length (stored_body entry.2)));
     obj_StorageClass := Some "STANDARD"; obj_Owner := None |}.

(** The source of a copy, split at its first slash. *)
Fixpoint split_source (s : string) : option (string * string) :=
  match s with
  | EmptyString => None
  | String c rest =>
      if Ascii.eqb c "/" then Some (EmptyString, rest)
      else match split_source rest with
           | Some (b, k) => Some (String c b, k)
           | None => None
           end
  end.

Definition answer (c : Command) (s : State) : JsError + Output c :=
  match c as c0 return JsError + Output c0 with
  | CreateBucketCommand _ _ _ => inr tt
  | ListBucketsCommand => inr {| Buckets := None |}
  | HeadBucketCommand _ => inr tt
  | GetObjectCommand bucket key _ _ _ _ _ =>
      match objects s !! (bucket, key) with
      | Some o =>
          inr {| Body := Some (bufferToStream (stored_body o));
                 ContentType := stored_type o;
                 ContentLength := Some (Z.of_nat (length (stored_body o)));
                 ETag := Some "etag"; LastModified := Some 0; Metadata := None |}
      | None => inl no_such_key
      end
  | CreateMultipartUploadCommand _ _ _ _ _ _ _ _ _ _ => inr {| UploadId := Some "upload-1" |}
  | UploadPartCommand _ _ _ _ _ => inr {| part_ETag := Some "etag-p" |}
  | CompleteMultipartUploadCommand _ _ _ _ =>
      inr {| done_ETag := Some "etag"; VersionId := None; Location := None |}
  | AbortMultipartUploadCommand _ _ _ => inr tt
  end.

Definition answer_object (c : ObjectCommand) (s : State)
  : (JsError + ObjectOutput c) * State :=
  match c as c0 return (JsError + ObjectOutput c0) * State with
  | DeleteBucketCommand bucket =>
      if existsb (in_bucket bucket) (map_to_list (objects s))
      then (inl bucket_not_empty, s)
      else (inr tt, s)
  | PutObjectCommand bucket key body type _ _ _ _ _ _ _ =>
      match bytes_of body with
      | inl e => (inl e, s)
      | inr b =>
          (inr {| put_ETag := Some "etag"; put_VersionId := None;
                  put_ServerSideEncryption := None |},
           {| objects := <[(bucket, key) := {| stored_body := b; stored_type := type |}]>
                           (objects s) |})
      end
  | DeleteObjectCommand bucket key =>
      (inr tt, {| objects := delete (bucket, key) (objects s) |})
  | CopyObjectCommand bucket key source _ _ _ _ _ _ =>
      match split_source source ≫= (fun from => objects s !! from) with
      | Some o =>
          (inr {| CopyObjectResult := Some {| copy_ETag := Some "etag" |};
                  copy_VersionId := None |},
           {| objects := <[(bucket, key) := o]> (objects s) |})
      | None => (inl no_such_key, s)
      end
  | HeadObjectCommand bucket key =>
      match objects s !! (bucket, key) with
      | Some o =>
          (inr {| head_ContentType := stored_type o;
                  head_ContentLength := Some (Z.of_nat (length (stored_body o)));
                  head_LastModified := Some 0; head_ETag := Some "etag";
                  head_Metadata := None; head_CacheControl := None;
                  head_ContentDisposition := None; head_ContentEncoding := None;
                  head_VersionId := None; head_StorageClass := None |}, s)
      | None => (inl no_such_key, s)
      end
  | ListObjectsV2Command bucket _ _ _ _ _ =>
      let found := filter (fun entry => in_bucket bucket entry = true)
                     (map_to_list (objects s)) in
      (inr {| Contents := Some (map listed found); CommonPrefixes := None;
              IsTruncated := Some false; NextContinuationToken := None;
              list_Name := Some bucket; list_Prefix := None; list_MaxKeys := Some 1000;
              KeyCount := Some (Z.of_nat (length found)) |}, s)
  end.

#[global] Instance client : S3Client State :=
  {| send c s := (answer c s, s) |}.

#[global] Instance object_client : S3ObjectClient State :=
  {| send_object := answer_object;
     getSignedUrl c expiresIn s :=
       (if bool_decide (0 < expiresIn)
        then inr "https://x/signed"
        else inl (SdkError "Error" "expiresIn must be positive" None), s) |}.

Definition empty : World State :=
  {| backend := {| objects := ∅ |}; uploads := ∅; clock := 0; trace := [] |}.

Definition hello : Buffer := [Byte.x68; Byte.x69].

(** A client over a store that holds one object. *)
Definition with_hello : World State :=
  {| backend :=
       {| objects := {[ ("valid-bucket", "f.txt") :=
                          {| stored_body := hello; stored_type := Some "text/plain" |} ]} |};
     uploads := ∅; clock := 0; trace := [] |}.

End Store.

(** Every tracked session sits under its own, non-empty upload id. *)
Definition well_keyed (u : gmap string MultipartUploadState) : Prop :=
  forall id s, u !! id = Some s -> st_uploadId s = id /\ id <> "".



Definition is_presigned (c : MethodCall) : bool :=
  match c with
  | Call_getPresignedDownloadUrl _ _ _ | Call_getPresignedUploadUrl _ _ _ => true
  | _ => false
  end.

Definition is_multipart (c : MethodCall) : bool :=
  match c with
  | Call_multipart _ => true
  | _ => false
  end.

(** The string has no slash. *)
Definition slash_free (s : string) : Prop :=
  ~ In "/"%char (list_ascii_of_string s).


(** The options of the call for the next page: the same, with the token of
    the page just received as [continuationToken]. *)
Definition next_page (options : option ListObjectsOptions) (r : ListObjectsResult)
  : ListObjectsOptions :=
  {| lo_prefix := options ≫= lo_prefix;
     delimiter := options ≫= delimiter;
     lo_maxKeys := options ≫= lo_maxKeys;
     continuationToken := nextContinuationToken r;
     startAfter := options ≫= startAfter |}.

(** ** JavaScript numbers *)

(** A JavaScript [number] is an IEEE 754 binary64 value. Where a property
    depends on how a number compares or adds, the code is read again, in
    [NumericConfig] below, with its numbers as doubles. *)
Module Number.
Import SpecFloat.

Definition prec : Z := 53.
Definition emax : Z := 1024.

(** Every double is a value of this type. *)
Definition number : Type := spec_float.

Definition NaN : number := S754_nan.

(** The double nearest to an integer: a numeric literal such as [3]. *)
Definition of_Z (z : Z) : number := binary_normalize prec emax z 0 false.

(** [a + b], [a < b] and [a <= b]. *)
Definition add : number -> number -> number := SFadd prec emax.
Definition lt : number -> number -> bool := SFltb.
Definition le : number -> number -> bool := SFleb.

(** The integer a double holds, when it holds one. *)
Definition to_Z (x : number) : option Z :=
  match x with
  | S754_zero _ => Some 0
  | S754_finite s m e =>
      if 0 <=? e then Some (cond_Zopp s (Z.pos m * 2 ^ e))
      else if Z.pos m mod 2 ^ (- e) =? 0
           then Some (cond_Zopp s (Z.pos m / 2 ^ (- e)))
           else None
  | _ => None
  end.

(** Below zero: a negative finite number or minus infinity. *)
Definition negative (x : number) : bool :=
  match x with
  | S754_finite true _ _ | S754_infinity true => true
  | _ => false
  end.

(** Zero of either sign. *)
Definition zero (x : number) : bool :=
  match x with S754_zero _ => true | _ => false end.

End Number.

(** ** A logger that may throw *)

(** The [Logger] interface is implemented by the caller, and the default
    implementation hands [meta] to [JSON.stringify]: a call on the logger may
    throw instead of returning. [logger_throws lg t l msg meta] is the value
    thrown, if any, by method [l] of the logger [lg] when called with [msg]
    and [meta] after the events [t]. *)
Class LoggerBehaviour := {
  logger_throws :
    Logger -> list Event -> Level -> string -> list (string * MetaValue) -> option JsError;
}.

(** ** client and utils/validation, with numbers as doubles *)

Module NumericConfig.
Import Number.

Record RetryPolicy := {
  rp_maxRetries : number;
  retryDelay : number;
  retryDelayMultiplier : number;
  maxRetryDelay : option number;
  rp_isRetryable : option (JsError -> bool);
}.

(** [FastlyStorageConfig]: every field is optional. *)
Record FastlyStorageConfig := {
  cfg_endpoint : option string;
  cfg_accessKeyId : option string;
  cfg_secretAccessKey : option string;
  cfg_region : option string;
  cfg_maxRetries : option number;
  cfg_timeout : option number;
  cfg_logger : option Logger;
  cfg_retryPolicy : option RetryPolicy;
  cfg_forcePathStyle : option bool;
}.

(** The constructor's default argument, [{}]. *)
Definition empty_config : FastlyStorageConfig :=
  {| cfg_endpoint := None; cfg_accessKeyId := None; cfg_secretAccessKey := None;
     cfg_region := None; cfg_maxRetries := None; cfg_timeout := None;
     cfg_logger := None; cfg_retryPolicy := None; cfg_forcePathStyle := None |}.

(** [Required<FastlyStorageConfig>]. *)
Record RequiredConfig := {
  endpoint : string;
  accessKeyId : string;
  secretAccessKey : string;
  region : string;
  maxRetries : number;
  timeout : number;
  logger : Logger;
  retryPolicy : RetryPolicy;
  forcePathStyle : bool;
}.

Definition default_retryPolicy : RetryPolicy :=
  {| rp_maxRetries := of_Z 3; retryDelay := of_Z 1000; retryDelayMultiplier := of_Z 2;
     maxRetryDelay := None; rp_isRetryable := None |}.

(** [_mergeConfig(config)], reading [process.env] as [env]. [??] keeps every
    number that is given, [NaN] included. *)
Definition _mergeConfig (config : FastlyStorageConfig) (env : Env) : RequiredConfig :=
  {| endpoint :=
       string_of (or_string (or_string (cfg_endpoint config) (env !! "FASTLY_ENDPOINT"))
                            (Some ""));
     accessKeyId :=
       string_of (or_string (or_string (cfg_accessKeyId config) (env !! "FASTLY_ACCESS_KEY_ID"))
                            (Some ""));
     secretAccessKey :=
       string_of (or_string (or_string (cfg_secretAccessKey config)
                                       (env !! "FASTLY_SECRET_ACCESS_KEY"))
                            (Some ""));
     region :=
       string_of (or_string (or_string (cfg_region config) (env !! "FASTLY_REGION"))
                            (Some "us-east-1"));
     maxRetries := nullish (cfg_maxRetries config) (of_Z 3);
     timeout := nullish (cfg_timeout config) (of_Z 30000);
     logger := nullish (cfg_logger config) DefaultLogger;
     retryPolicy := nullish (cfg_retryPolicy config) default_retryPolicy;
     forcePathStyle := nullish (cfg_forcePathStyle config) true |}.

(** The values of an error's context, numbers being doubles. *)
Inductive ContextValue :=
| CString (s : string)
| CNumber (x : number).

(** The [FastlyStorageError] class, with such a context. *)
Record FastlyStorageError := {
  message : string;
  code : string;
  statusCode : option number;
  context : option (gmap string ContextValue);
  cause : option JsError;
}.

(** [new FastlyStorageError(message, 'INVALID_CONFIG', { context })]. *)
Definition invalid_config (msg : string) (ctx : gmap string ContextValue)
  : FastlyStorageError :=
  {| message := msg; code := "INVALID_CONFIG"; statusCode := None;
     context := Some ctx; cause := None |}.

Definition field_context (field : string) : gmap string ContextValue :=
  {[ "field" := CString field ]}.

Section Validation.
Context `{Platform}.

(** [validateConfig(config)]: [inl e] when it throws [e]. *)
Definition validateConfig (config : RequiredConfig) : FastlyStorageError + unit :=
  if negb (truthy_string (Some (endpoint config))) then
    inl (invalid_config
           "Endpoint is required. Set FASTLY_ENDPOINT environment variable or provide in config."
           (field_context "endpoint"))
  else if negb (truthy_string (Some (accessKeyId config))) then
    inl (invalid_config
           "Access Key ID is required. Set FASTLY_ACCESS_KEY_ID environment variable or provide in config."
           (field_context "accessKeyId"))
  else if negb (truthy_string (Some (secretAccessKey config))) then
    inl (invalid_config
           "Secret Access Key is required. Set FASTLY_SECRET_ACCESS_KEY environment variable or provide in config."
           (field_context "secretAccessKey"))
  else if negb (isValidUrl (endpoint config)) then
    inl (invalid_config "Invalid endpoint URL"
           (<["value" := CString (endpoint config)]> (field_context "endpoint")))
  else if lt (maxRetries config) (of_Z 0) then
    inl (invalid_config "maxRetries must be non-negative"
           (<["value" := CNumber (maxRetries config)]> (field_context "maxRetries")))
  else if le (timeout config) (of_Z 0) then
    inl (invalid_config "timeout must be positive"
           (<["value" := CNumber (timeout config)]> (field_context "timeout")))
  else inr tt.

End Validation.

(** The configuration [_initializeS3Client] hands to [new S3Client]. *)
Record S3ClientConfig := {
  s3_endpoint : string;
  s3_region : string;
  s3_accessKeyId : string;
  s3_secretAccessKey : string;
  s3_forcePathStyle : bool;
  maxAttempts : number;
  requestTimeout : number;
}.

(** The [clientConfig] literal of [_initializeS3Client()]. *)
Definition clientConfig (config : RequiredConfig) : S3ClientConfig :=
  {| s3_endpoint := endpoint config;
     s3_region := region config;
     s3_accessKeyId := accessKeyId config;
     s3_secretAccessKey := secretAccessKey config;
     s3_forcePathStyle := forcePathStyle config;
     maxAttempts := add (maxRetries config) (of_Z 1);
     requestTimeout := timeout config |}.

(** [new S3Client(cfg)] is a call into the SDK: [new_S3Client_throws cfg] is
    the value it throws, if any. *)
Class S3ClientConstructor := {
  new_S3Client_throws : S3ClientConfig -> option JsError;
}.

(** What the constructor does besides returning: the call of
    [new S3Client(cfg)] and the call of [this._logger.info]. *)
Inductive Effect :=
| NewS3Client (cfg : S3ClientConfig)
| Logged (l : Level) (msg : string) (meta : list (string * MetaValue)).

(** The configurations [new S3Client] was called with, oldest first. *)
Definition clients_created (t : list Effect) : list S3ClientConfig :=
  omap (fun e => match e with NewS3Client c => Some c | _ => None end) t.

(** What the constructor throws: the error of [validateConfig], or whatever
    [new S3Client] or the logger threw. *)
Inductive Thrown :=
| OfValidation (e : FastlyStorageError)
| OfS3Client (e : JsError)
| OfLogger (e : JsError).

Record FastlyStorageClient := {
  _config : RequiredConfig;
  _logger : Logger;
  _s3Client : S3ClientConfig;
}.

Section Construction.
Context `{Platform} `{S3ClientConstructor} `{LoggerBehaviour}.

Definition initialized_meta (config : RequiredConfig) : list (string * MetaValue) :=
  [("endpoint", MVal (VString (endpoint config)));
   ("region", MVal (VString (region config)))].

(** [new FastlyStorageClient(config)], with what it did. [inl e]: the
    constructor threw [e] and no facade exists. The merged logger is an
    object, so [this._config.logger || new DefaultLogger()] is that logger;
    no operation has run when it is called. *)
Definition new_FastlyStorageClient
    (config : option FastlyStorageConfig) (env : Env)
  : (Thrown + FastlyStorageClient) * list Effect :=
  let merged := _mergeConfig (nullish config empty_config) env in
  let lg := logger merged in
  match validateConfig merged with
  | inl e => (inl (OfValidation e), [])
  | inr _ =>
      let s3 := clientConfig merged in
      match new_S3Client_throws s3 with
      | Some thrown => (inl (OfS3Client thrown), [NewS3Client s3])
      | None =>
          let done :=
            [NewS3Client s3;
             Logged Info "Fastly Storage Client initialized" (initialized_meta merged)] in
          match logger_throws lg [] Info "Fastly Storage Client initialized"
                  (initialized_meta merged) with
          | Some thrown => (inl (OfLogger thrown), done)
          | None => (inr {| _config := merged; _logger := lg; _s3Client := s3 |}, done)
          end
      end
  end.

End Construction.

(** The settings [validateConfig] is there to refuse. *)
Definition invalid `{Platform} (config : RequiredConfig) : Prop :=
  endpoint config = "" \/ accessKeyId config = "" \/ secretAccessKey config = "" \/
  isValidUrl (endpoint config) = false \/
  negative (maxRetries config) = true \/
  negative (timeout config) || zero (timeout config) = true.

(** A configuration that is complete but for its timeout, which is [NaN]. *)
Definition NaN_timeout_config : FastlyStorageConfig :=
  {| cfg_endpoint := Some "https://x"; cfg_accessKeyId := Some "k";
     cfg_secretAccessKey := Some "s"; cfg_region := None; cfg_maxRetries := None;
     cfg_timeout := Some NaN; cfg_logger := None; cfg_retryPolicy := None;
     cfg_forcePathStyle := None |}.

(** An SDK whose [new S3Client] returns, for the examples. *)
Definition constructs_always : S3ClientConstructor :=
  {| new_S3Client_throws _ := None |}.

(** A complete configuration asking for [n] retries. *)
Definition retries_config (n : number) : FastlyStorageConfig :=
  {| cfg_endpoint := Some "https://x"; cfg_accessKeyId := Some "k";
     cfg_secretAccessKey := Some "s"; cfg_region := None; cfg_maxRetries := Some n;
     cfg_timeout := None; cfg_logger := None; cfg_retryPolicy := None;
     cfg_forcePathStyle := None |}.

End NumericConfig.

(** ** operations/MultipartOperations, with a logger that may throw *)

Module ThrowingLogger.

Section MultipartOperations.
Context {B : Type} `{!S3Client B} `{!LoggerBehaviour}.
(** The logger the group was constructed with. *)
Context (lg : Logger).
Local Open Scope js_scope.

(** [this.logger.debug(...)], [.info(...)], [.error(...)]: the call takes
    place, and returns or throws. *)
Definition log (l : Level) (msg : string) (meta : list (string * MetaValue)) : M B unit :=
  fun w => match logger_throws lg (trace w) l msg meta with
           | Some thrown => (inl thrown, emit (EvLog l msg meta) w)
           | None => (inr tt, emit (EvLog l msg meta) w)
           end.

Definition createMultipartUpload
    (bucket key : string) (options : option UploadObjectOptions)
  : M B MultipartUploadResult :=
  try_catch
    (log Info "Creating multipart upload"
       [("bucket", ctx_string bucket); ("key", ctx_string key)];;
     let* response := client_send (create_command bucket key options) in
     if negb (truthy_string (UploadId response)) then
       throw_fastly (no_upload_id bucket key)
     else
       let uploadId := string_of (UploadId response) in
       let* tracked := get_uploads in
       put_uploads
         (<[uploadId := {| st_uploadId := uploadId; st_bucket := bucket; st_key := key |}]>
            tracked);;
       log Info "Multipart upload created successfully"
         [("bucket", ctx_string bucket); ("key", ctx_string key);
          ("uploadId", ctx_string uploadId)];;
       ret {| uploadId := uploadId; bucket := bucket; key := key |})
    (fun error =>
       log Error "Failed to create multipart upload"
         [("bucket", ctx_string bucket); ("key", ctx_string key); ("error", MErr error)];;
       throw_fastly
         (fromS3Error error
            (Some (<["operation" := VString "createMultipartUpload"]>
                     (bucket_key_context bucket key))))).

Definition uploadPart (uploadId : string) (partNumber : Z) (data : Buffer)
  : M B UploadPartResult :=
  let* tracked := get_uploads in
  match tracked !! uploadId with
  | None => throw_fastly (upload_not_found uploadId)
  | Some uploadState =>
      try_catch
        (log Debug "Uploading part"
           [("uploadId", ctx_string uploadId); ("partNumber", ctx_number partNumber);
            ("size", ctx_number (Z.of_nat (length data)))];;
         let* response :=
           client_send
             (UploadPartCommand (st_bucket uploadState) (st_key uploadState)
                uploadId partNumber data) in
         if negb (truthy_string (part_ETag response)) then
           throw_fastly (no_etag uploadId partNumber)
         else
           log Debug "Part uploaded successfully"
             [("uploadId", ctx_string uploadId); ("partNumber", ctx_number partNumber);
              ("etag", ctx_string (string_of (part_ETag response)))];;
           ret {| upr_partNumber := partNumber;
                  upr_etag := string_of (part_ETag response) |})
        (fun error =>
           log Error "Failed to upload part"
             [("uploadId", ctx_string uploadId); ("partNumber", ctx_number partNumber);
              ("error", MErr error)];;
           throw_fastly
             (fromS3Error error
                (Some {[ "uploadId" := VString uploadId;
                         "partNumber" := VNumber partNumber;
                         "operation" := VString "uploadPart" ]})))
  end.

Definition completeMultipartUpload (uploadId : string) (parts : list UploadPart)
  : M B UploadResult :=
  let* tracked := get_uploads in
  match tracked !! uploadId with
  | None => throw_fastly (upload_not_found uploadId)
  | Some uploadState =>
      try_catch
        (log Info "Completing multipart upload"
           [("uploadId", ctx_string uploadId);
            ("partCount", ctx_number (Z.of_nat (length parts)))];;
         let* response :=
           client_send
             (CompleteMultipartUploadCommand (st_bucket uploadState) (st_key uploadState)
                uploadId (map completed_part parts)) in
         let* current := get_uploads in
         put_uploads (delete uploadId current);;
         log Info "Multipart upload completed successfully"
           [("uploadId", ctx_string uploadId);
            ("location", MVal (of_opt_string (Location response)))];;
         ret {| ur_etag := done_ETag response;
                versionId := VersionId response;
                location := Location response |})
        (fun error =>
           log Error "Failed to complete multipart upload"
             [("uploadId", ctx_string uploadId); ("error", MErr error)];;
           throw_fastly
             (fromS3Error error
                (Some {[ "uploadId" := VString uploadId;
                         "operation" := VString "completeMultipartUpload" ]})))
  end.

Definition abortMultipartUpload (uploadId : string) : M B unit :=
  let* tracked := get_uploads in
  match tracked !! uploadId with
  | None => throw_fastly (upload_not_found uploadId)
  | Some uploadState =>
      try_catch
        (log Info "Aborting multipart upload" [("uploadId", ctx_string uploadId)];;
         client_send
           (AbortMultipartUploadCommand (st_bucket uploadState) (st_key uploadState)
              uploadId);;
         let* current := get_uploads in
         put_uploads (delete uploadId current);;
         log Info "Multipart upload aborted successfully" [("uploadId", ctx_string uploadId)])
        (fun error =>
           log Error "Failed to abort multipart upload"
             [("uploadId", ctx_string uploadId); ("error", MErr error)];;
           throw_fastly
             (fromS3Error error
                (Some {[ "uploadId" := VString uploadId;
                         "operation" := VString "abortMultipartUpload" ]})))
  end.

Definition run (c : MultipartCall) : M B MultipartReturn :=
  match c with
  | CallCreate bucket key options =>
      fmap_M Created (createMultipartUpload bucket key options)
  | CallUploadPart uploadId partNumber data =>
      fmap_M PartUploaded (uploadPart uploadId partNumber data)
  | CallComplete uploadId parts =>
      fmap_M Completed (completeMultipartUpload uploadId parts)
  | CallAbort uploadId =>
      fmap_M (fun _ => Aborted) (abortMultipartUpload uploadId)
  end.



End MultipartOperations.


(** Loggers for the examples. *)
Definition returns_always : LoggerBehaviour :=
  {| logger_throws _ _ _ _ _ := None |}.



End ThrowingLogger.

(** ** Sessions across later calls *)

Section Undisturbed.
Context {B : Type} `{!S3Client B}.



End Undisturbed.

(** * Properties *)

(** ** Error normalization *)

Lemma new_error_code msg cd options : code (new_FastlyStorageError msg cd options) = cd.
Proof. reflexivity. Qed.

Lemma new_error_status msg cd options :
  statusCode (new_FastlyStorageError msg cd options) = options ≫= opt_statusCode.
Proof. reflexivity. Qed.

(** Wrapping one of the wrapper's own errors a second time: the code
    becomes the class name, the status is dropped, and the original error
    survives only as the cause. *)
Lemma fromS3Error_of_own_error (e : FastlyStorageError) ctx :
  code (fromS3Error (OfFastly e) ctx) = "FastlyStorageError" /\
  statusCode (fromS3Error (OfFastly e) ctx) = None /\
  cause (fromS3Error (OfFastly e) ctx) = Some (OfFastly e).
Proof. repeat split. Qed.

(** An SDK error answered with HTTP 404 is normalized to [NOT_FOUND]. *)
Lemma fromS3Error_404 nm msg rid ctx :
  let e := SdkError nm msg (Some {| httpStatusCode := Some 404; requestId := rid |}) in
  code (fromS3Error e ctx) = "NOT_FOUND" /\ statusCode (fromS3Error e ctx) = Some 404.
Proof. split; reflexivity. Qed.

(** The exact condition under which [isRetryable] answers [true]. *)
Lemma isRetryable_true_iff (e : FastlyStorageError) :
  isRetryable e = true <->
  exists s, statusCode e = Some s /\ s <> 0 /\
            (500 <= s \/ s = 429 \/ s = 408 \/
             code e = "ECONNRESET" \/ code e = "ETIMEDOUT").
Proof.
  unfold isRetryable.
  destruct (statusCode e) as [s|] eqn:Hs; simpl.
  - destruct (Z.eq_dec s 0) as [->|Hnz]; simpl.
    + split; [discriminate|]. intros (s & [= <-] & Hne & _). lia.
    + assert (Ht : match s with 0 => false | _ => true end = true)
        by (destruct s; congruence).
      rewrite Ht. simpl.
      repeat case_bool_decide; simpl; split; intros Hx; try done;
        try (exists s; split; [done|split; [done|]]; naive_solver lia).
      all: destruct Hx as (s' & [= <-] & _ & Hcases).
      all: destruct Hcases as [?|[?|[?|[?|?]]]]; try lia; try congruence.
  - split; [discriminate|]. intros (s & [=] & _).
Qed.

(** C3 (as the code behaves): an error that carries no HTTP status is
    never retryable, whatever its code, so a transient network code such
    as ECONNRESET or ETIMEDOUT without a status gives [false]. *)
Theorem isRetryable_without_status_is_false :
  (forall msg cd ctx cs, isRetryable (MkFastlyStorageError msg cd None ctx cs) = false) /\
  isRetryable (new_FastlyStorageError "read ECONNRESET" "ECONNRESET" None) = false /\
  isRetryable (new_FastlyStorageError "connect ETIMEDOUT" "ETIMEDOUT" None) = false.
Proof. repeat split. Qed.

(** ** Regular expressions: the matcher decides the language *)

Create HintDb regex.

Module RegExpFacts.
Import RegExp.

#[local] Hint Constructors lang : regex.

Lemma lang_Void_inv s : lang Void s -> False.
Proof. inversion 1. Qed.

Lemma lang_Eps_inv s : lang Eps s -> s = [].
Proof. inversion 1; reflexivity. Qed.

Lemma lang_Class_inv p s : lang (Class p) s -> exists c, s = [c] /\ p c = true.
Proof. inversion 1; subst; eauto. Qed.

Lemma lang_Cat_inv r1 r2 s :
  lang (Cat r1 r2) s -> exists s1 s2, s = s1 ++ s2 /\ lang r1 s1 /\ lang r2 s2.
Proof. inversion 1; subst; eauto. Qed.

Lemma lang_Alt_inv r1 r2 s : lang (Alt r1 r2) s -> lang r1 s \/ lang r2 s.
Proof. inversion 1; subst; auto. Qed.

Lemma lang_Cat_cons r1 r2 c s1 s2 :
  lang r1 (c :: s1) -> lang r2 s2 -> lang (Cat r1 r2) (c :: s1 ++ s2).
Proof. intros H1 H2. change (c :: s1 ++ s2) with ((c :: s1) ++ s2). eauto with regex. Qed.

Lemma lang_Cat_nil_l r1 r2 s : lang r1 [] -> lang r2 s -> lang (Cat r1 r2) s.
Proof. intros H1 H2. change s with ([] ++ s). eauto with regex. Qed.

Lemma nullable_lang r : nullable r = true <-> lang r [].
Proof.
  induction r as [| |p|r1 IH1 r2 IH2|r1 IH1 r2 IH2|r IH]; simpl; split; intros Hn;
    try discriminate; eauto with regex.
  - destruct (lang_Void_inv _ Hn).
  - apply lang_Class_inv in Hn as (c & [=] & _).
  - apply andb_true_iff in Hn as [H1 H2]. apply lang_Cat_nil_l; tauto.
  - apply lang_Cat_inv in Hn as (s1 & s2 & Heq & H1 & H2).
    symmetry in Heq. apply app_eq_nil in Heq as [-> ->].
    apply andb_true_iff. tauto.
  - apply orb_true_iff in Hn as [H1|H2]; [apply lang_Alt_l|apply lang_Alt_r]; tauto.
  - apply orb_true_iff. apply lang_Alt_inv in Hn. tauto.
Qed.

(** A non-empty word of a starred language starts with a non-empty word
    of the language. *)
Lemma lang_Star_cons r c s :
  lang (Star r) (c :: s) ->
  exists s1 s2, s = s1 ++ s2 /\ lang r (c :: s1) /\ lang (Star r) s2.
Proof.
  intros Hl. remember (Star r) as r' eqn:Hr. remember (c :: s) as w eqn:Hw.
  revert Hr Hw.
  induction Hl as [| | | | | |r0 s1 s2 H1 _ H2 IH2]; intros Hr Hw; try discriminate.
  injection Hr as ->.
  destruct s1 as [|c1 s1]; simpl in Hw.
  - apply IH2; auto.
  - injection Hw as -> <-. eauto.
Qed.

Lemma lang_deriv c r : forall s, lang (deriv c r) s <-> lang r (c :: s).
Proof.
  induction r as [| |p|r1 IH1 r2 IH2|r1 IH1 r2 IH2|r IH]; intros s; simpl.
  - split; intros Hl; destruct (lang_Void_inv _ Hl).
  - split; intros Hl; [destruct (lang_Void_inv _ Hl)|].
    apply lang_Eps_inv in Hl. discriminate.
  - destruct (p c) eqn:Hp; split; intros Hl.
    + apply lang_Eps_inv in Hl as ->. eauto with regex.
    + apply lang_Class_inv in Hl as (c' & [= -> ->] & _). constructor.
    + destruct (lang_Void_inv _ Hl).
    + apply lang_Class_inv in Hl as (c' & [= -> ->] & Hc). congruence.
  - destruct (nullable r1) eqn:Hn.
    + split; intros Hl.
      * apply lang_Alt_inv in Hl as [Hc|Hd].
        -- apply lang_Cat_inv in Hc as (s1 & s2 & -> & Hc1 & Hc2).
           apply lang_Cat_cons; [apply IH1|]; assumption.
        -- apply lang_Cat_nil_l; [apply nullable_lang|apply IH2]; assumption.
      * apply lang_Cat_inv in Hl as (s1 & s2 & Heq & Hc1 & Hc2).
        destruct s1 as [|c1 s1]; simpl in Heq.
        -- subst s2. apply lang_Alt_r. apply IH2. assumption.
        -- injection Heq as -> ->. apply lang_Alt_l.
           constructor; [apply IH1|]; assumption.
    + split; intros Hl.
      * apply lang_Cat_inv in Hl as (s1 & s2 & -> & Hc1 & Hc2).
        apply lang_Cat_cons; [apply IH1|]; assumption.
      * apply lang_Cat_inv in Hl as (s1 & s2 & Heq & Hc1 & Hc2).
        destruct s1 as [|c1 s1]; simpl in Heq.
        -- apply nullable_lang in Hc1. congruence.
        -- injection Heq as -> ->. constructor; [apply IH1|]; assumption.
  - split; intros Hl; apply lang_Alt_inv in Hl as [Hl|Hl];
      first [apply lang_Alt_l; apply IH1; assumption
            |apply lang_Alt_r; apply IH2; assumption].
  - split; intros Hl.
    + apply lang_Cat_inv in Hl as (s1 & s2 & -> & Hc1 & Hc2).
      change (c :: s1 ++ s2) with ((c :: s1) ++ s2).
      constructor; [apply IH|]; assumption.
    + apply lang_Star_cons in Hl as (s1 & s2 & -> & H1 & H2).
      constructor; [apply IH|]; assumption.
Qed.

Lemma matches_lang s : forall r, matches r s = true <-> lang r s.
Proof.
  induction s as [|c s IH]; intros r; simpl.
  - apply nullable_lang.
  - rewrite IH. apply lang_deriv.
Qed.

Lemma lang_Star_Class p s :
  lang (Star (Class p)) s <-> Forall (fun c => p c = true) s.
Proof.
  split.
  - intros Hl. remember (Star (Class p)) as r eqn:Hr. revert Hr.
    induction Hl as [| | | | | |r0 s1 s2 H1 _ H2 IH2]; intros Hr; try discriminate.
    + constructor.
    + injection Hr as ->. apply lang_Class_inv in H1 as (c & -> & Hc).
      simpl. constructor; auto.
  - induction 1 as [|c s Hc _ IH].
    + constructor.
    + change (c :: s) with ([c] ++ s). eauto with regex.
Qed.

Lemma lang_Star_any s : lang (Star any) s.
Proof. apply lang_Star_Class. apply Forall_forall. reflexivity. Qed.

Lemma is_char_true x c : is_char x c = true <-> c = x.
Proof. unfold is_char. rewrite Ascii.eqb_eq. split; congruence. Qed.

(** [/^[a-z0-9][a-z0-9.-]*[a-z0-9]$/.test(name)] *)
Lemma test_bucket_name_pattern name :
  test bucket_name_pattern name = true <->
  exists first middle last,
    list_ascii_of_string name = first :: middle ++ [last] /\
    lower_or_digit first = true /\
    Forall (fun c => lower_digit_dot_hyphen c = true) middle /\
    lower_or_digit last = true.
Proof.
  unfold test, bucket_name_pattern. simpl. rewrite matches_lang.
  generalize (list_ascii_of_string name) as cs. intros cs. split.
  - intros Hl.
    apply lang_Cat_inv in Hl as (s0 & t0 & -> & H0 & Hl).
    apply lang_Eps_inv in H0 as ->.
    apply lang_Cat_inv in Hl as (t1 & s9 & -> & Hl & H9).
    apply lang_Eps_inv in H9 as ->.
    apply lang_Cat_inv in Hl as (s1 & t2 & -> & H1 & Hl).
    apply lang_Cat_inv in Hl as (s2 & s3 & -> & H2 & H3).
    apply lang_Class_inv in H1 as (first & -> & Hfirst).
    apply lang_Class_inv in H3 as (last & -> & Hlast).
    apply lang_Star_Class in H2.
    exists first, s2, last. simpl. rewrite app_nil_r. auto.
  - intros (first & middle & last & -> & Hf & Hm & Hlast).
    apply lang_Cat_nil_l; [constructor|].
    rewrite <- (app_nil_r (first :: middle ++ [last])).
    constructor; [|constructor].
    change (first :: middle ++ [last]) with ([first] ++ middle ++ [last]).
    repeat constructor; auto. apply lang_Star_Class. assumption.
Qed.

(** [/\.\./.test(name)] *)
Lemma test_double_dot_pattern name :
  test double_dot_pattern name = true <->
  exists before after,
    list_ascii_of_string name = before ++ "."%char :: "."%char :: after.
Proof.
  unfold test, double_dot_pattern. simpl. rewrite matches_lang.
  generalize (list_ascii_of_string name) as cs. intros cs. split.
  - intros Hl.
    apply lang_Cat_inv in Hl as (before & t0 & -> & _ & Hl).
    apply lang_Cat_inv in Hl as (t1 & after & -> & Hl & _).
    apply lang_Cat_inv in Hl as (s1 & s2 & -> & H1 & H2).
    apply lang_Class_inv in H1 as (c1 & -> & Hc1).
    apply lang_Class_inv in H2 as (c2 & -> & Hc2).
    apply is_char_true in Hc1 as ->. apply is_char_true in Hc2 as ->.
    exists before, after. reflexivity.
  - intros (before & after & ->).
    change ("."%char :: "."%char :: after)
      with ((["."%char] ++ ["."%char]) ++ after).
    constructor; [apply lang_Star_any|].
    constructor; [|apply lang_Star_any].
    constructor; constructor; reflexivity.
Qed.

End RegExpFacts.

(** ** Bucket names *)

Lemma length_list_ascii_of_string s :
  length (list_ascii_of_string s) = String.length s.
Proof. induction s as [|c s IH]; simpl; congruence. Qed.


(** The validator accepts exactly the names the rule describes. *)
Lemma validateBucketName_accepts_iff name :
  validateBucketName name = inr tt <-> AsStated.well_formed_bucket_name name.
Proof.
  unfold validateBucketName, AsStated.well_formed_bucket_name.
  rewrite length_list_ascii_of_string.
  pose proof (RegExpFacts.test_bucket_name_pattern name) as Hpat.
  pose proof (RegExpFacts.test_double_dot_pattern name) as Hdots.
  destruct name as [|c0 name'] eqn:Hname; simpl negb; cbv iota.
  - split; [discriminate|]. simpl. lia.
  - rewrite <- Hname in *. clear Hname.
    destruct (String.length name <? 3)%nat eqn:Hlo; simpl.
    { split; [discriminate|]. apply Nat.ltb_lt in Hlo. lia. }
    destruct (63 <? String.length name)%nat eqn:Hhi; simpl.
    { split; [discriminate|]. apply Nat.ltb_lt in Hhi. lia. }
    apply Nat.ltb_ge in Hlo, Hhi.
    destruct (RegExp.test RegExp.bucket_name_pattern name) eqn:Hp; simpl.
    + destruct (RegExp.test RegExp.double_dot_pattern name) eqn:Hd.
      * split; [discriminate|]. intros (_ & _ & Hno). destruct Hno. apply Hdots. reflexivity.
      * split; [|reflexivity]. intros _. split; [lia|]. split; [apply Hpat; reflexivity|].
        intros Hex. apply Hdots in Hex. discriminate.
    + split; [discriminate|]. intros (_ & Hex & _). apply Hpat in Hex. discriminate.
Qed.

(** ** Traces *)

Lemma sent_app t1 t2 : sent (t1 ++ t2) = sent t1 ++ sent t2.
Proof. unfold sent. apply omap_app. Qed.

Lemma sent_log t l msg meta : sent (t ++ [EvLog l msg meta]) = sent t.
Proof. rewrite sent_app. simpl. apply app_nil_r. Qed.

Lemma sent_send t c : sent (t ++ [EvSend c]) = sent t ++ [c].
Proof. rewrite sent_app. reflexivity. Qed.

(** Unfolds the monadic plumbing of an operation. *)
Ltac unfold_M :=
  unfold fmap_M in *;
  unfold try_catch, bind, ret, throw_fastly, throw, log, client_send,
    get_uploads, put_uploads, new_Date in *.

(** ** Bucket operations *)

Section BucketFacts.
Context {B : Type} `{!S3Client B}.



End BucketFacts.



Section BucketInfoFacts.
Context {B : Type} `{!S3Client B}.

Lemma find_name_is_None name (bs : list Bucket) :
  Forall (fun b => Name b <> Some name) bs ->
  List.find (name_is name) (map to_BucketInfo bs) = None.
Proof.
  induction 1 as [|b bs Hb _ IH]; simpl; [reflexivity|].
  unfold name_is at 1. simpl. rewrite bool_decide_eq_false_2; assumption.
Qed.

(** C1 (as the code behaves): when the existence check succeeds and the
    listing that follows succeeds without the name, [getBucketInfo] throws
    its NOT_FOUND/404 error inside its own [try] block; the [catch] wraps
    it again, so the error that reaches the caller has code
    "FastlyStorageError" and no status. The NOT_FOUND/404 error is only
    its cause. *)
Theorem getBucketInfo_absent_from_listing_loses_not_found
    name (w : World B) b1 out b2 :
  send (HeadBucketCommand name) (backend w) = (inr tt, b1) ->
  send ListBucketsCommand b1 = (inr out, b2) ->
  Forall (fun b => Name b <> Some name) (nullish (Buckets out) []) ->
  exists e w',
    getBucketInfo name w = (inl (OfFastly e), w') /\
    code e = "FastlyStorageError" /\
    statusCode e = None /\
    code e <> "NOT_FOUND" /\
    statusCode e <> Some 404 /\
    exists inner,
      cause e = Some (OfFastly inner) /\
      code inner = "NOT_FOUND" /\ statusCode inner = Some 404.
Proof.
  intros Hhead Hlist Habsent.
  apply find_name_is_None in Habsent.
  unfold getBucketInfo, listBuckets. unfold_M. simpl.
  rewrite Hhead. simpl. rewrite Hlist. simpl. rewrite Habsent. simpl.
  eexists _, _. split; [reflexivity|]. simpl.
  repeat split; try discriminate. eexists. repeat split.
Qed.

End BucketInfoFacts.

Lemma getBucketInfo_absent_from_listing_witness :
  exists e w',
    getBucketInfo "valid-bucket" (Demo.fresh Demo.bare) = (inl (OfFastly e), w') /\
    code e = "FastlyStorageError" /\ statusCode e = None.
Proof.
  destruct (getBucketInfo_absent_from_listing_loses_not_found
              "valid-bucket" (Demo.fresh Demo.bare) Demo.bare
              {| Buckets := Some [] |} Demo.bare)
    as (e & w' & Hrun & Hcode & Hstatus & _).
  - reflexivity.
  - reflexivity.
  - constructor.
  - exists e, w'. auto.
Defined.

Section BucketInfoSibling.
Context {B : Type} `{!S3Client B}.

(** The sibling path: when the existence check itself is answered with
    HTTP 404, the caller does get NOT_FOUND with status 404. *)
Lemma getBucketInfo_head_404 name (w : World B) nm msg rid b1 :
  send (HeadBucketCommand name) (backend w) =
    (inl (SdkError nm msg (Some {| httpStatusCode := Some 404; requestId := rid |})), b1) ->
  exists e w',
    getBucketInfo name w = (inl (OfFastly e), w') /\
    code e = "NOT_FOUND" /\ statusCode e = Some 404.
Proof.
  intros Hhead. unfold getBucketInfo. unfold_M. simpl. rewrite Hhead. simpl.
  eexists _, _. split; [reflexivity|]. split; reflexivity.
Qed.

End BucketInfoSibling.

(** ** Defensive checks on the backend's response *)

Section MissingFieldFacts.
Context {B : Type} `{!S3Client B}.

Lemma getObject_without_body bucket key options (w : World B) out b1 :
  send (get_command bucket key options) (backend w) = (inr out, b1) ->
  Body out = None ->
  exists e w',
    getObject bucket key options w = (inl (OfFastly e), w') /\
    code e = "FastlyStorageError" /\
    cause e = Some (OfFastly (empty_body_error bucket key)).
Proof.
  intros Hsend Hbody. unfold getObject. unfold_M. simpl.
  rewrite Hsend. simpl. rewrite Hbody. simpl.
  eexists _, _. split; [reflexivity|]. split; reflexivity.
Qed.

Lemma getObjectStream_without_body bucket key options (w : World B) out b1 :
  send (get_command bucket key options) (backend w) = (inr out, b1) ->
  Body out = None ->
  exists e w',
    getObjectStream bucket key options w = (inl (OfFastly e), w') /\
    code e = "FastlyStorageError" /\
    cause e = Some (OfFastly (empty_body_error bucket key)).
Proof.
  intros Hsend Hbody. unfold getObjectStream. unfold_M. simpl.
  rewrite Hsend. simpl. rewrite Hbody. simpl.
  eexists _, _. split; [reflexivity|]. split; reflexivity.
Qed.

Lemma createMultipartUpload_without_id bucket key options (w : World B) out b1 :
  send (create_command bucket key options) (backend w) = (inr out, b1) ->
  truthy_string (UploadId out) = false ->
  exists e w',
    createMultipartUpload bucket key options w = (inl (OfFastly e), w') /\
    code e = "FastlyStorageError" /\
    cause e = Some (OfFastly (no_upload_id bucket key)).
Proof.
  intros Hsend Hid. unfold createMultipartUpload. unfold_M. simpl.
  rewrite Hsend. simpl. rewrite Hid. simpl.
  eexists _, _. split; [reflexivity|]. split; reflexivity.
Qed.

Lemma uploadPart_without_etag uploadId partNumber data (w : World B) s out b1 :
  uploads w !! uploadId = Some s ->
  send (UploadPartCommand (st_bucket s) (st_key s) uploadId partNumber data) (backend w)
    = (inr out, b1) ->
  truthy_string (part_ETag out) = false ->
  exists e w',
    uploadPart uploadId partNumber data w = (inl (OfFastly e), w') /\
    code e = "FastlyStorageError" /\
    cause e = Some (OfFastly (no_etag uploadId partNumber)).
Proof.
  intros Htracked Hsend Hetag. unfold uploadPart. unfold_M. simpl.
  rewrite Htracked. simpl. rewrite Hsend. simpl. rewrite Hetag. simpl.
  eexists _, _. split; [reflexivity|]. split; reflexivity.
Qed.

(** C2 (as the code behaves): each defensive error (EMPTY_BODY,
    NO_UPLOAD_ID, NO_ETAG) is thrown inside the operation's own [try]
    block and wrapped again by its [catch]: the caller receives an error
    whose code is "FastlyStorageError", with the defensive error as its
    cause. *)
Theorem missing_field_errors_lose_their_code bucket key (w : World B) :
  (forall options out b1,
      send (get_command bucket key options) (backend w) = (inr out, b1) ->
      Body out = None ->
      (exists e w',
          getObject bucket key options w = (inl (OfFastly e), w') /\
          code e = "FastlyStorageError" /\ code e <> "EMPTY_BODY" /\
          cause e = Some (OfFastly (empty_body_error bucket key))) /\
      (exists e w',
          getObjectStream bucket key options w = (inl (OfFastly e), w') /\
          code e = "FastlyStorageError" /\ code e <> "EMPTY_BODY" /\
          cause e = Some (OfFastly (empty_body_error bucket key)))) /\
  (forall options out b1,
      send (create_command bucket key options) (backend w) = (inr out, b1) ->
      truthy_string (UploadId out) = false ->
      exists e w',
        createMultipartUpload bucket key options w = (inl (OfFastly e), w') /\
        code e = "FastlyStorageError" /\ code e <> "NO_UPLOAD_ID" /\
        cause e = Some (OfFastly (no_upload_id bucket key))) /\
  (forall uploadId partNumber data s out b1,
      uploads w !! uploadId = Some s ->
      send (UploadPartCommand (st_bucket s) (st_key s) uploadId partNumber data)
        (backend w) = (inr out, b1) ->
      truthy_string (part_ETag out) = false ->
      exists e w',
        uploadPart uploadId partNumber data w = (inl (OfFastly e), w') /\
        code e = "FastlyStorageError" /\ code e <> "NO_ETAG" /\
        cause e = Some (OfFastly (no_etag uploadId partNumber))).
Proof.
  split; [|split].
  - intros options out b1 Hsend Hbody. split.
    + destruct (getObject_without_body _ _ _ _ _ _ Hsend Hbody)
        as (e & w' & Hrun & Hcode & Hcause).
      exists e, w'. rewrite Hcode. repeat split; auto; discriminate.
    + destruct (getObjectStream_without_body _ _ _ _ _ _ Hsend Hbody)
        as (e & w' & Hrun & Hcode & Hcause).
      exists e, w'. rewrite Hcode. repeat split; auto; discriminate.
  - intros options out b1 Hsend Hid.
    destruct (createMultipartUpload_without_id _ _ _ _ _ _ Hsend Hid)
      as (e & w' & Hrun & Hcode & Hcause).
    exists e, w'. rewrite Hcode. repeat split; auto; discriminate.
  - intros uploadId partNumber data s out b1 Htracked Hsend Hetag.
    destruct (uploadPart_without_etag _ _ _ _ _ _ _ Htracked Hsend Hetag)
      as (e & w' & Hrun & Hcode & Hcause).
    exists e, w'. rewrite Hcode. repeat split; auto; discriminate.
Qed.

End MissingFieldFacts.

Lemma missing_field_errors_witness :
  (exists e w',
      getObject "valid-bucket" "f.txt" None (Demo.tracking_1 Demo.bare)
        = (inl (OfFastly e), w') /\ code e = "FastlyStorageError") /\
  (exists e w',
      getObjectStream "valid-bucket" "f.txt" None (Demo.tracking_1 Demo.bare)
        = (inl (OfFastly e), w') /\ code e = "FastlyStorageError") /\
  (exists e w',
      createMultipartUpload "valid-bucket" "f.txt" None (Demo.tracking_1 Demo.bare)
        = (inl (OfFastly e), w') /\ code e = "FastlyStorageError") /\
  (exists e w',
      uploadPart "upload-1" 1 [] (Demo.tracking_1 Demo.bare)
        = (inl (OfFastly e), w') /\ code e = "FastlyStorageError").
Proof.
  destruct (missing_field_errors_lose_their_code
              "valid-bucket" "f.txt" (Demo.tracking_1 Demo.bare))
    as (Hget & Hcreate & Hpart).
  destruct (Hget None _ Demo.bare eq_refl eq_refl)
    as ((e1 & w1 & Hr1 & Hc1 & _) & (e2 & w2 & Hr2 & Hc2 & _)).
  destruct (Hcreate None _ Demo.bare eq_refl eq_refl) as (e3 & w3 & Hr3 & Hc3 & _).
  destruct (Hpart "upload-1" 1 [] Demo.session_1 _ Demo.bare eq_refl eq_refl eq_refl)
    as (e4 & w4 & Hr4 & Hc4 & _).
  repeat split; eauto.
Defined.

(** ** Multipart sessions *)

Section MultipartFacts.
Context {B : Type} `{!S3Client B}.

Lemma upload_not_found_code id : code (upload_not_found id) = "UPLOAD_NOT_FOUND".
Proof. reflexivity. Qed.


Lemma completeMultipartUpload_untracked id parts (w : World B) :
  uploads w !! id = None ->
  completeMultipartUpload id parts w = (inl (OfFastly (upload_not_found id)), w).
Proof.
  intros Hu. unfold completeMultipartUpload. unfold_M. simpl. rewrite Hu. reflexivity.
Qed.

Lemma abortMultipartUpload_untracked id (w : World B) :
  uploads w !! id = None ->
  abortMultipartUpload id w = (inl (OfFastly (upload_not_found id)), w).
Proof.
  intros Hu. unfold abortMultipartUpload. unfold_M. simpl. rewrite Hu. reflexivity.
Qed.

(** What each call does to the session map, and whether it returns. *)
Lemma run_create_uploads bucket key options (w : World B) :
  match send (create_command bucket key options) (backend w) with
  | (inr out, _) =>
      if truthy_string (UploadId out) then
        let id := string_of (UploadId out) in
        (run (CallCreate bucket key options) w).1 =
          inr (Created {| uploadId := id; bucket := bucket; key := key |}) /\
        uploads (run (CallCreate bucket key options) w).2 =
          <[id := {| st_uploadId := id; st_bucket := bucket; st_key := key |}]> (uploads w)
      else
        (exists e, (run (CallCreate bucket key options) w).1 = inl e) /\
        uploads (run (CallCreate bucket key options) w).2 = uploads w
  | (inl _, _) =>
      (exists e, (run (CallCreate bucket key options) w).1 = inl e) /\
      uploads (run (CallCreate bucket key options) w).2 = uploads w
  end.
Proof.
  unfold run, createMultipartUpload. unfold_M. simpl.
  destruct (send _ (backend w)) as [[err|out] b1]; simpl; eauto.
  destruct (truthy_string (UploadId out)); simpl; eauto.
Qed.

Lemma run_uploadPart_uploads id partNumber data (w : World B) :
  uploads (run (CallUploadPart id partNumber data) w).2 = uploads w.
Proof.
  unfold run, uploadPart. unfold_M. simpl.
  destruct (uploads w !! id) as [s|]; simpl; [|reflexivity].
  destruct (send _ (backend w)) as [[err|out] b1]; simpl; [reflexivity|].
  destruct (truthy_string (part_ETag out)); reflexivity.
Qed.

(** Completing or aborting a tracked upload: the session is deleted when
    the backend answers, and only then. *)
Lemma run_finish_uploads id c s (w : World B) cmd :
  finishes id c ->
  uploads w !! id = Some s ->
  finishing_command s c = Some cmd ->
  sent (trace (run c w).2) = sent (trace w) ++ [cmd] /\
  match (send cmd (backend w)).1 with
  | inr _ =>
      (exists r, (run c w).1 = inr r) /\
      uploads (run c w).2 = delete id (uploads w)
  | inl _ =>
      (exists e, (run c w).1 = inl e) /\
      uploads (run c w).2 = uploads w
  end.
Proof.
  intros Hfin Hu Hcmd.
  destruct c as [? ? ?|? ? ?|i parts|i]; simpl in Hfin; try contradiction; subst i;
    simpl in Hcmd; injection Hcmd as <-.
  - unfold run, completeMultipartUpload. unfold_M. simpl. rewrite Hu. simpl.
    destruct (send _ (backend w)) as [[err|out] b1]; simpl;
      rewrite ?sent_log, ?sent_send, ?sent_log; eauto.
  - unfold run, abortMultipartUpload. unfold_M. simpl. rewrite Hu. simpl.
    destruct (send _ (backend w)) as [[err|out] b1]; simpl;
      rewrite ?sent_log, ?sent_send, ?sent_log; eauto.
Qed.

Lemma run_finish_untracked id c (w : World B) :
  finishes id c ->
  uploads w !! id = None ->
  run c w = (inl (OfFastly (upload_not_found id)), w).
Proof.
  intros Hfin Hu.
  destruct c as [? ? ?|? ? ?|i parts|i]; simpl in Hfin; try contradiction; subst i.
  - unfold run, fmap_M, bind. rewrite completeMultipartUpload_untracked by assumption.
    reflexivity.
  - unfold run, fmap_M, bind. rewrite abortMultipartUpload_untracked by assumption.
    reflexivity.
Qed.




End MultipartFacts.

Section MultipartClaims.
Context {B : Type} `{!S3Client B}.



End MultipartClaims.



(** ** Configuration *)

Lemma Resolved_or_string explicit env default :
  Resolved explicit env default
    (string_of (or_string (or_string explicit env) (Some default))).
Proof.
  unfold or_string.
  destruct (truthy_string explicit) eqn:He.
  - rewrite He. destruct explicit as [[|c s]|]; try discriminate.
    simpl. apply Resolved_explicit; [reflexivity|discriminate].
  - destruct (truthy_string env) eqn:Hv.
    + destruct env as [[|c s]|]; try discriminate.
      simpl. apply Resolved_env; [assumption|reflexivity|discriminate].
    + simpl. apply Resolved_default; assumption.
Qed.

(** [Resolved] determines the value. *)
Lemma Resolved_functional explicit env default a b :
  Resolved explicit env default a -> Resolved explicit env default b -> a = b.
Proof.
  intros Ha Hb.
  destruct Ha as [s Hs Hne|s He Hs Hne|He Hv];
    destruct Hb as [s' Hs' Hne'|s' He' Hs' Hne'|He' Hv']; subst;
    try congruence;
    repeat match goal with
      | H : truthy_string (Some ?x) = false |- _ =>
          destruct x; [congruence|discriminate H]
      end.
Qed.

(** Where neither the explicit field nor the variable is the empty string,
    the code's choice is the one the wording describes. *)
Lemma or_string_pick explicit env default :
  explicit <> Some "" -> env <> Some "" ->
  string_of (or_string (or_string explicit env) (Some default)) =
    AsStated.pick explicit env default.
Proof.
  intros He Hv. unfold or_string.
  destruct explicit as [[|c s]|]; [congruence|reflexivity|].
  destruct env as [[|c s]|]; [congruence|reflexivity|].
  destruct default; reflexivity.
Qed.

(** C7 (as stated) fails: an explicit field that is present but empty does
    not win. With [region: ''] given and FASTLY_REGION set, the wording
    yields [''] and the code yields the variable's value. *)
Lemma mergeConfig_ignores_explicit_empty_string :
  cfg_region Demo.blank_region_config = Some "" /\
  region (AsStated.mergeConfig Demo.blank_region_config Demo.region_env) = "" /\
  region (_mergeConfig Demo.blank_region_config Demo.region_env) = "eu-west-1" /\
  _mergeConfig Demo.blank_region_config Demo.region_env
    <> AsStated.mergeConfig Demo.blank_region_config Demo.region_env.
Proof.
  assert (Hcode : region (_mergeConfig Demo.blank_region_config Demo.region_env)
                  = "eu-west-1") by (vm_compute; reflexivity).
  assert (Hword : region (AsStated.mergeConfig Demo.blank_region_config Demo.region_env)
                  = "") by (vm_compute; reflexivity).
  repeat split; try assumption.
  intros Heq. rewrite Heq in Hcode. rewrite Hword in Hcode. discriminate.
Qed.

(** C7 (amended): each of endpoint, accessKeyId, secretAccessKey and region
    is the explicit field when that is given and non-empty, else the
    variable FASTLY_ENDPOINT, FASTLY_ACCESS_KEY_ID, FASTLY_SECRET_ACCESS_KEY,
    FASTLY_REGION when that is set and non-empty, else the default (the
    empty string for the first three, us-east-1 for the region); maxRetries,
    timeout, forcePathStyle, logger and retryPolicy are the explicit field
    when given, else 3, 30000, true, the default logger, and the policy
    with maxRetries 3, retryDelay 1000, multiplier 2. Where no string setting
    is the empty string this is the merge as the specification words it. *)
Theorem mergeConfig_resolves_each_field config env :
  let m := _mergeConfig config env in
  Resolved (cfg_endpoint config) (env !! "FASTLY_ENDPOINT") "" (endpoint m) /\
  Resolved (cfg_accessKeyId config) (env !! "FASTLY_ACCESS_KEY_ID") "" (accessKeyId m) /\
  Resolved (cfg_secretAccessKey config) (env !! "FASTLY_SECRET_ACCESS_KEY") ""
    (secretAccessKey m) /\
  Resolved (cfg_region config) (env !! "FASTLY_REGION") "us-east-1" (region m) /\
  maxRetries m = AsStated.pick (cfg_maxRetries config) None 3 /\
  timeout m = AsStated.pick (cfg_timeout config) None 30000 /\
  forcePathStyle m = AsStated.pick (cfg_forcePathStyle config) None true /\
  logger m = AsStated.pick (cfg_logger config) None DefaultLogger /\
  retryPolicy m = AsStated.pick (cfg_retryPolicy config) None default_retryPolicy /\
  (rp_maxRetries default_retryPolicy = 3 /\
   retryDelay default_retryPolicy = 1000 /\
   retryDelayMultiplier default_retryPolicy = 2) /\
  (cfg_endpoint config <> Some "" -> cfg_accessKeyId config <> Some "" ->
   cfg_secretAccessKey config <> Some "" -> cfg_region config <> Some "" ->
   env !! "FASTLY_ENDPOINT" <> Some "" -> env !! "FASTLY_ACCESS_KEY_ID" <> Some "" ->
   env !! "FASTLY_SECRET_ACCESS_KEY" <> Some "" -> env !! "FASTLY_REGION" <> Some "" ->
   m = AsStated.mergeConfig config env).
Proof.
  simpl. repeat split; try apply Resolved_or_string;
    try (destruct config as [? ? ? ? [?|] [?|] [?|] [?|] [?|]]; reflexivity).
  intros H1 H2 H3 H4 H5 H6 H7 H8.
  unfold _mergeConfig, AsStated.mergeConfig.
  rewrite !or_string_pick by assumption.
  destruct config as [? ? ? ? [?|] [?|] [?|] [?|] [?|]]; reflexivity.
Qed.

Lemma mergeConfig_resolves_witness :
  region (_mergeConfig Demo.scenario_config Demo.region_env) = "eu-west-1" /\
  _mergeConfig Demo.scenario_config Demo.region_env
    = AsStated.mergeConfig Demo.scenario_config Demo.region_env.
Proof.
  pose proof (mergeConfig_resolves_each_field Demo.scenario_config Demo.region_env)
    as (_ & _ & _ & Hregion & _ & _ & _ & _ & _ & _ & Hsame).
  split.
  - eapply Resolved_functional; [exact Hregion|].
    apply Resolved_env; [reflexivity|reflexivity|discriminate].
  - apply Hsame; vm_compute; discriminate.
Defined.

(** ** The repository's tests and the specification's scenario, replayed *)

Module Replay.
Import Demo.

Example bucket_names :
  map verdict ["AB"; "a..b"; "-abc"; "ab"; "my-bucket.01"; "valid-bucket"]
  = ["INVALID_BUCKET_NAME"; "INVALID_BUCKET_NAME"; "INVALID_BUCKET_NAME";
     "INVALID_BUCKET_NAME"; "accepted"; "accepted"].
Proof. reflexivity. Qed.

Example bucket_name_of_64_characters :
  verdict "aaaaaaaaaaaaaaaaaaaaaaaaaaaaaaaaaaaaaaaaaaaaaaaaaaaaaaaaaaaaaaaa"
  = "INVALID_BUCKET_NAME".
Proof. reflexivity. Qed.

(** 'should determine if error is retryable' *)
Example retryable_by_status :
  isRetryable (with_status "SERVER_ERROR" 500) = true /\
  isRetryable (with_status "BAD_REQUEST" 400) = false /\
  isRetryable (with_status "RATE_LIMIT" 429) = true /\
  isRetryable (with_status "ECONNRESET" 400) = true.
Proof. repeat split. Qed.

(** 'should create error from S3 error' *)
Example error_from_404 :
  let e := fromS3Error
             (SdkError "Error" "S3 operation failed"
                (Some {| httpStatusCode := Some 404; requestId := Some "req-123" |}))
             (Some {[ "bucket" := VString "test-bucket" ]}) in
  code e = "NOT_FOUND" /\ statusCode e = Some 404 /\
  (context e ≫= (.!! "bucket")) = Some (VString "test-bucket").
Proof. repeat split. Qed.

(** 'should create client with config' and 'should throw error when config
    is invalid' *)
Example construct_with_config :
  exists c evs,
    @new_FastlyStorageClient https_only (Some scenario_config) ∅ = (inr c, evs) /\
    region (_config c) = "us-east-1" /\ maxAttempts (_s3Client c) = 4.
Proof. eexists _, _. repeat split. Qed.

Example construct_with_empty_strings :
  let config :=
    {| cfg_endpoint := Some ""; cfg_accessKeyId := Some ""; cfg_secretAccessKey := Some "";
       cfg_region := None; cfg_maxRetries := None; cfg_timeout := None;
       cfg_logger := None; cfg_retryPolicy := None; cfg_forcePathStyle := None |} in
  exists e,
    @new_FastlyStorageClient https_only (Some config) ∅ = (inl e, []) /\
    code e = "INVALID_CONFIG".
Proof. eexists. split; reflexivity. Qed.

(** A whole multipart upload, then a second completion. *)
Example multipart_lifecycle :
  let calls :=
    [CallCreate "valid-bucket" "big.bin" None;
     CallUploadPart "upload-1" 1 [Byte.x68];
     CallComplete "upload-1" [ {| partNumber := 1; etag := "etag-p" |} ];
     CallComplete "upload-1" [ {| partNumber := 1; etag := "etag-p" |} ]] in
  results calls (fresh issuing)
  = [inr (Created {| uploadId := "upload-1"; bucket := "valid-bucket"; key := "big.bin" |});
     inr (PartUploaded {| upr_partNumber := 1; upr_etag := "etag-p" |});
     inr (Completed {| ur_etag := Some "etag-1"; versionId := None;
                       location := Some "https://x/valid-bucket/big.bin" |});
     inl (OfFastly (upload_not_found "upload-1"))] /\
  sent (trace (run_all calls (fresh issuing)))
  = [create_command "valid-bucket" "big.bin" None;
     UploadPartCommand "valid-bucket" "big.bin" "upload-1" 1 [Byte.x68];
     CompleteMultipartUploadCommand "valid-bucket" "big.bin" "upload-1" [(1, "etag-p")]].
Proof. split; vm_compute; reflexivity. Qed.

Example download :
  exists r w,
    getObject "valid-bucket" "f.txt" None (fresh issuing) = (inr r, w) /\
    dl_body r = [Byte.x68; Byte.x69] /\ dl_contentLength r = 2 /\ dl_etag r = "etag-f".
Proof. eexists _, _. repeat split. Qed.

Example bucket_info_when_listed :
  (getBucketInfo "valid-bucket" (fresh issuing)).1
  = inr {| name := Some "valid-bucket"; creationDate := Some 0 |}.
Proof. reflexivity. Qed.

End Replay.

(** * Further properties of the code *)

(** ** Error normalization *)

Lemma or_string_fallback_not_blank s d :
  d <> "" -> string_of (or_string (Some s) (Some d)) <> "".
Proof. intros Hd. destruct s; simpl; [assumption|discriminate]. Qed.

(** X1: a normalized error never has an empty message or an empty code; it
    keeps the HTTP status of what was caught (none when there is no
    [$metadata]) and holds the caught value as its cause. *)
Theorem fromS3Error_is_never_blank err ctx :
  message (fromS3Error err ctx) <> "" /\
  code (fromS3Error err ctx) <> "" /\
  statusCode (fromS3Error err ctx) = error_metadata err ≫= httpStatusCode /\
  cause (fromS3Error err ctx) = Some err.
Proof.
  unfold fromS3Error. simpl. repeat split.
  - apply or_string_fallback_not_blank. discriminate.
  - case_decide; [discriminate|]. apply or_string_fallback_not_blank. discriminate.
Qed.

(** X2: the context of a normalized error is the caller's context with the
    key [requestId] set to the request id of what was caught ([undefined]
    when there is none): every other key is kept, and a [requestId] the
    caller supplied is overwritten. *)
Theorem fromS3Error_context_keeps_callers_keys err ctx :
  exists c,
    context (fromS3Error err ctx) = Some c /\
    c !! "requestId" = Some (of_opt_string (error_metadata err ≫= requestId)) /\
    (forall k, k <> "requestId" -> c !! k = nullish ctx ∅ !! k).
Proof.
  eexists. split; [reflexivity|]. unfold with_requestId. split.
  - apply lookup_insert_eq.
  - intros k Hk. apply lookup_insert_ne. congruence.
Qed.

(** X3: [isRetryable] is decided by the status first: without a status (or
    with status 0) the answer is [false] whatever the code; with a status of
    500 or more, 429 or 408 it is [true] whatever the code; with any other
    status it is [true] exactly for the codes ECONNRESET and ETIMEDOUT. *)
Theorem isRetryable_decided_by_status_then_code e :
  (truthy_number (statusCode e) = false -> isRetryable e = false) /\
  (forall s, statusCode e = Some s -> 500 <= s \/ s = 429 \/ s = 408 ->
             isRetryable e = true) /\
  (forall s, statusCode e = Some s -> s <> 0 -> s < 500 -> s <> 429 -> s <> 408 ->
             (isRetryable e = true <-> code e = "ECONNRESET" \/ code e = "ETIMEDOUT")).
Proof.
  split; [|split].
  - intros Hs. unfold isRetryable. rewrite Hs. reflexivity.
  - intros s Hs Hcases. apply isRetryable_true_iff. exists s.
    split; [assumption|]. split; [lia|]. tauto.
  - intros s Hs Hnz Hlt H429 H408. rewrite isRetryable_true_iff. split.
    + intros (s' & Hs' & _ & Hcases). assert (s' = s) by congruence. subst s'.
      destruct Hcases as [?|[?|[?|?]]]; try lia. assumption.
    + intros Hcode. exists s. tauto.
Qed.

Lemma isRetryable_decided_witness :
  isRetryable (Demo.with_status "SERVER_ERROR" 503) = true /\
  (isRetryable (Demo.with_status "ETIMEDOUT" 400) = true <->
   "ETIMEDOUT" = "ECONNRESET" \/ "ETIMEDOUT" = "ETIMEDOUT").
Proof.
  destruct (isRetryable_decided_by_status_then_code (Demo.with_status "SERVER_ERROR" 503))
    as (_ & Hhigh & _).
  destruct (isRetryable_decided_by_status_then_code (Demo.with_status "ETIMEDOUT" 400))
    as (_ & _ & Hlow).
  split.
  - apply (Hhigh 503); [reflexivity|lia].
  - apply (Hlow 400); [reflexivity|lia..].
Defined.

(** X4: whether the normalization of a caught value is retryable depends
    only on the HTTP status and the name of what was caught: a status of 500
    or more, 429 or 408, or any other non-zero status but 404 together with
    the name ECONNRESET or ETIMEDOUT. In particular one of the wrapper's own
    errors, once wrapped again, is never retryable. *)
Theorem normalized_error_retryable_iff err ctx :
  (isRetryable (fromS3Error err ctx) = true <->
   exists s,
     error_metadata err ≫= httpStatusCode = Some s /\ s <> 0 /\
     (500 <= s \/ s = 429 \/ s = 408 \/
      (s <> 404 /\ (error_name err = "ECONNRESET" \/ error_name err = "ETIMEDOUT")))) /\
  (forall f, err = OfFastly f -> isRetryable (fromS3Error err ctx) = false).
Proof.
  split.
  - rewrite isRetryable_true_iff. unfold fromS3Error. simpl.
    destruct (error_metadata err ≫= httpStatusCode) as [s|] eqn:Hs.
    + split.
      * intros (s' & [= <-] & Hnz & Hcases). exists s. split; [reflexivity|].
        split; [assumption|].
        case_decide as H404.
        -- injection H404 as ->. destruct Hcases as [?|[?|[?|[?|?]]]];
             try lia; discriminate.
        -- assert (s <> 404) by congruence.
           destruct Hcases as [?|[?|[?|[Hc|Hc]]]]; try tauto;
             destruct (error_name err) as [|a n]; simpl in Hc; try discriminate;
             tauto.
      * intros (s' & [= <-] & Hnz & Hcases). exists s. split; [reflexivity|].
        split; [assumption|].
        destruct Hcases as [?|[?|[?|(H404 & Hname)]]]; try tauto.
        rewrite decide_False by congruence.
        destruct (error_name err) as [|a n]; simpl;
          destruct Hname as [Hn|Hn]; try discriminate Hn; rewrite Hn; tauto.
    + split; intros (s & [=] & _).
  - intros f ->. reflexivity.
Qed.

(** ** Validation and configuration *)

(** X5: [validateObjectKey] accepts exactly the keys of 1 to 1024
    characters, and what it throws has code INVALID_OBJECT_KEY. *)
Theorem validateObjectKey_accepts_iff key :
  (validateObjectKey key = inr tt <-> (1 <= String.length key <= 1024)%nat) /\
  (forall e, validateObjectKey key = inl e -> code e = "INVALID_OBJECT_KEY").
Proof.
  unfold validateObjectKey. destruct key as [|c key]; simpl negb; cbv iota.
  - split; [|intros e [= <-]; reflexivity]. split; [discriminate|]. simpl. lia.
  - destruct (1024 <? String.length (String c key))%nat eqn:Hlen.
    + split; [|intros e [= <-]; reflexivity].
      split; [discriminate|]. apply Nat.ltb_lt in Hlen. lia.
    + split; [|discriminate]. apply Nat.ltb_ge in Hlen.
      split; [|reflexivity]. intros _. simpl in *. lia.
Qed.

(** X6: explicit settings shield the configuration from the environment:
    when endpoint, accessKeyId, secretAccessKey and region are all given and
    non-empty, the merged configuration is the same under every
    environment. *)
Theorem explicit_settings_ignore_environment config env env' :
  truthy_string (cfg_endpoint config) = true ->
  truthy_string (cfg_accessKeyId config) = true ->
  truthy_string (cfg_secretAccessKey config) = true ->
  truthy_string (cfg_region config) = true ->
  _mergeConfig config env = _mergeConfig config env'.
Proof.
  intros H1 H2 H3 H4. unfold _mergeConfig, or_string.
  rewrite H1, H2, H3, H4. reflexivity.
Qed.

Lemma explicit_settings_witness :
  _mergeConfig (Demo.blank_region_config) ∅ <> _mergeConfig Demo.blank_region_config Demo.region_env /\
  _mergeConfig
    {| cfg_endpoint := Some "https://x"; cfg_accessKeyId := Some "k";
       cfg_secretAccessKey := Some "s"; cfg_region := Some "ap-south-1";
       cfg_maxRetries := None; cfg_timeout := None; cfg_logger := None;
       cfg_retryPolicy := None; cfg_forcePathStyle := None |} ∅
  = _mergeConfig
      {| cfg_endpoint := Some "https://x"; cfg_accessKeyId := Some "k";
         cfg_secretAccessKey := Some "s"; cfg_region := Some "ap-south-1";
         cfg_maxRetries := None; cfg_timeout := None; cfg_logger := None;
         cfg_retryPolicy := None; cfg_forcePathStyle := None |} Demo.region_env.
Proof.
  split.
  - intros Heq. apply (f_equal region) in Heq. vm_compute in Heq. discriminate.
  - apply explicit_settings_ignore_environment; reflexivity.
Defined.

Section ValidateConfigFacts.
Context `{Platform}.

(** X7: what [validateConfig] throws names, under the key [field] of its
    context, the first setting that is wrong in the order: empty endpoint,
    empty accessKeyId, empty secretAccessKey, endpoint that does not parse,
    negative maxRetries, non-positive timeout. *)
Theorem validateConfig_blames_first_invalid_field (config : RequiredConfig) e :
  validateConfig config = inl e ->
  code e = "INVALID_CONFIG" /\
  exists f,
    (context e ≫= (.!! "field")) = Some (VString f) /\
    ((f = "endpoint" /\ endpoint config = "") \/
     (f = "accessKeyId" /\ endpoint config <> "" /\ accessKeyId config = "") \/
     (f = "secretAccessKey" /\ endpoint config <> "" /\ accessKeyId config <> "" /\
      secretAccessKey config = "") \/
     (f = "endpoint" /\ endpoint config <> "" /\ accessKeyId config <> "" /\
      secretAccessKey config <> "" /\ URL_parses (endpoint config) = false) \/
     (f = "maxRetries" /\ endpoint config <> "" /\ accessKeyId config <> "" /\
      secretAccessKey config <> "" /\ URL_parses (endpoint config) = true /\
      maxRetries config < 0) \/
     (f = "timeout" /\ endpoint config <> "" /\ accessKeyId config <> "" /\
      secretAccessKey config <> "" /\ URL_parses (endpoint config) = true /\
      0 <= maxRetries config /\ timeout config <= 0)).
Proof.
  unfold validateConfig, isValidUrl.
  destruct (endpoint config) as [|c1 s1] eqn:He; simpl.
  { intros [= <-]. split; [reflexivity|]. exists "endpoint". split; [reflexivity|]. tauto. }
  destruct (accessKeyId config) as [|c2 s2] eqn:Ha; simpl.
  { intros [= <-]. split; [reflexivity|]. exists "accessKeyId". split; [reflexivity|].
    right; left. repeat split; congruence. }
  destruct (secretAccessKey config) as [|c3 s3] eqn:Hs; simpl.
  { intros [= <-]. split; [reflexivity|]. exists "secretAccessKey".
    split; [reflexivity|]. right; right; left. repeat split; congruence. }
  destruct (URL_parses (String c1 s1)) eqn:Hu; simpl.
  2:{ intros [= <-]. split; [reflexivity|]. exists "endpoint". split.
      - simpl. unfold field_context. rewrite lookup_insert_ne by discriminate.
        apply lookup_singleton_eq.
      - right; right; right; left. repeat split; congruence. }
  case_bool_decide as Hr.
  { intros [= <-]. split; [reflexivity|]. exists "maxRetries". split.
    - simpl. unfold field_context. rewrite lookup_insert_ne by discriminate.
      apply lookup_singleton_eq.
    - do 4 right. left. repeat split; congruence || assumption. }
  case_bool_decide as Ht; [|discriminate].
  intros [= <-]. split; [reflexivity|]. exists "timeout". split.
  - simpl. unfold field_context. rewrite lookup_insert_ne by discriminate.
    apply lookup_singleton_eq.
  - do 5 right. repeat split; try congruence; try assumption. lia.
Qed.

Lemma console_output_reads_DEBUG (env env' : Env) t :
  truthy_string (env !! "DEBUG") = truthy_string (env' !! "DEBUG") ->
  console_output env t = console_output env' t.
Proof.
  intros Hdebug. unfold console_output.
  induction t as [| [l msg meta | c | cfg] t IH]; simpl; [reflexivity | | exact IH ..].
  rewrite IH. f_equal. destruct l; simpl; rewrite ?Hdebug; reflexivity.
Qed.

(** X8: construction reads the environment through FASTLY_ENDPOINT,
    FASTLY_ACCESS_KEY_ID, FASTLY_SECRET_ACCESS_KEY and FASTLY_REGION, and,
    inside the default logger, through DEBUG. Two environments that agree on
    the first four give the same facade or error, the same S3 client and the
    same logger calls. What the default logger prints for those calls is the
    same if the two environments also agree on whether DEBUG is set and not
    empty; if they do not, and a facade is built with the default logger, it
    differs: the line that reports the initialization is printed under one
    of them only. *)
Theorem construction_reads_FASTLY_variables_and_DEBUG config (env env' : Env) :
  (forall k, In k ["FASTLY_ENDPOINT"; "FASTLY_ACCESS_KEY_ID";
                   "FASTLY_SECRET_ACCESS_KEY"; "FASTLY_REGION"] ->
             env !! k = env' !! k) ->
  new_FastlyStorageClient config env = new_FastlyStorageClient config env' /\
  (truthy_string (env !! "DEBUG") = truthy_string (env' !! "DEBUG") ->
   console_output env (new_FastlyStorageClient config env).2
   = console_output env' (new_FastlyStorageClient config env').2) /\
  (forall facade,
      (new_FastlyStorageClient config env).1 = inr facade ->
      _logger facade = DefaultLogger ->
      truthy_string (env !! "DEBUG") <> truthy_string (env' !! "DEBUG") ->
      console_output env (new_FastlyStorageClient config env).2
      <> console_output env' (new_FastlyStorageClient config env').2).
Proof.
  intros Hsame.
  assert (Hmerge : forall c, _mergeConfig c env = _mergeConfig c env').
  { intros c. unfold _mergeConfig.
    rewrite !(Hsame "FASTLY_ENDPOINT"), !(Hsame "FASTLY_ACCESS_KEY_ID"),
      !(Hsame "FASTLY_SECRET_ACCESS_KEY"), !(Hsame "FASTLY_REGION")
      by (simpl; tauto).
    reflexivity. }
  assert (Hnew : new_FastlyStorageClient config env = new_FastlyStorageClient config env').
  { unfold new_FastlyStorageClient. rewrite Hmerge. reflexivity. }
  split; [exact Hnew |]. rewrite <- Hnew. split.
  - intros Hdebug. apply console_output_reads_DEBUG. exact Hdebug.
  - intros facade Hbuilt _ Hdebug. revert Hbuilt.
    unfold new_FastlyStorageClient.
    destruct (validateConfig _) as [e | u]; [discriminate |].
    intros _. simpl.
    destruct (truthy_string (env !! "DEBUG")), (truthy_string (env' !! "DEBUG"));
      simpl; congruence.
Qed.

End ValidateConfigFacts.

Lemma validateConfig_blames_witness :
  exists e,
    @validateConfig Demo.https_only
      (_mergeConfig
         {| cfg_endpoint := Some "ftp://x"; cfg_accessKeyId := Some "k";
            cfg_secretAccessKey := Some "s"; cfg_region := None;
            cfg_maxRetries := Some (-1); cfg_timeout := Some 0; cfg_logger := None;
            cfg_retryPolicy := None; cfg_forcePathStyle := None |} ∅) = inl e /\
    (context e ≫= (.!! "field")) = Some (VString "endpoint").
Proof.
  eexists. split; [vm_compute; reflexivity|].
  match goal with
  | |- context [context ?e] =>
      destruct (@validateConfig_blames_first_invalid_field Demo.https_only
                  (_mergeConfig
                     {| cfg_endpoint := Some "ftp://x"; cfg_accessKeyId := Some "k";
                        cfg_secretAccessKey := Some "s"; cfg_region := None;
                        cfg_maxRetries := Some (-1); cfg_timeout := Some 0;
                        cfg_logger := None; cfg_retryPolicy := None;
                        cfg_forcePathStyle := None |} ∅) e)
        as (_ & f & Hf & Hcases); [vm_compute; reflexivity|]
  end.
  rewrite Hf. f_equal. f_equal.
  destruct Hcases as [[-> _]|[(_ & _ & Hx)|[(_ & _ & _ & Hx)|[[-> _]|[Hx|Hx]]]]];
    try reflexivity; try discriminate Hx.
  - destruct Hx as (_ & _ & _ & _ & Hu & _). vm_compute in Hu. discriminate.
  - destruct Hx as (_ & _ & _ & _ & Hu & _). vm_compute in Hu. discriminate.
Defined.

Lemma construction_reads_FASTLY_variables_and_DEBUG_witness :
  @new_FastlyStorageClient Demo.https_only (Some Demo.scenario_config)
    (<["DEBUG" := "1"]> Demo.region_env)
  = @new_FastlyStorageClient Demo.https_only (Some Demo.scenario_config) Demo.region_env /\
  console_output (<["DEBUG" := ""]> Demo.region_env)
    (@new_FastlyStorageClient Demo.https_only (Some Demo.scenario_config)
       (<["DEBUG" := ""]> Demo.region_env)).2
  = console_output Demo.region_env
      (@new_FastlyStorageClient Demo.https_only (Some Demo.scenario_config)
         Demo.region_env).2 /\
  console_output (<["DEBUG" := "1"]> Demo.region_env)
    (@new_FastlyStorageClient Demo.https_only (Some Demo.scenario_config)
       (<["DEBUG" := "1"]> Demo.region_env)).2
  <> console_output Demo.region_env
       (@new_FastlyStorageClient Demo.https_only (Some Demo.scenario_config)
          Demo.region_env).2.
Proof.
  assert (Hagree : forall v k,
             In k ["FASTLY_ENDPOINT"; "FASTLY_ACCESS_KEY_ID";
                   "FASTLY_SECRET_ACCESS_KEY"; "FASTLY_REGION"] ->
             (<["DEBUG" := v]> Demo.region_env : Env) !! k = Demo.region_env !! k).
  { intros v k Hk. apply lookup_insert_ne.
    simpl in Hk. destruct Hk as [<- | [<- | [<- | [<- | []]]]]; discriminate. }
  split; [| split].
  - apply (@construction_reads_FASTLY_variables_and_DEBUG Demo.https_only
             (Some Demo.scenario_config) _ _ (Hagree "1")).
  - apply (@construction_reads_FASTLY_variables_and_DEBUG Demo.https_only
             (Some Demo.scenario_config) _ _ (Hagree "")).
    reflexivity.
  - eapply (@construction_reads_FASTLY_variables_and_DEBUG Demo.https_only
              (Some Demo.scenario_config) _ _ (Hagree "1")).
    + vm_compute. reflexivity.
    + reflexivity.
    + vm_compute. discriminate.
Defined.

(** ** Bucket information *)

Section BucketInfoMore.
Context {B : Type} `{!S3Client B}.




End BucketInfoMore.


(** ** Downloads *)

Section DownloadFacts.
Context {B : Type} `{!S3Client B}.

(** X11: a buffer turned into a stream and read back is the same buffer,
    and reading it changes nothing else. *)
Theorem streamToBuffer_bufferToStream (buffer : Buffer) (w : World B) :
  streamToBuffer (bufferToStream buffer) w = (inr buffer, w).
Proof.
  unfold streamToBuffer, bufferToStream. simpl.
  destruct buffer as [|x buffer]; simpl; [reflexivity|].
  unfold ret. rewrite app_nil_r. reflexivity.
Qed.



End DownloadFacts.



(** ** Multipart uploads *)

Section MultipartMore.
Context {B : Type} `{!S3Client B}.

Lemma truthy_string_Some s : truthy_string (Some s) = true <-> s <> "".
Proof. destruct s; simpl; split; congruence. Qed.







Lemma run_keeps_well_keyed c (w : World B) :
  well_keyed (uploads w) -> well_keyed (uploads (run c w).2).
Proof.
  intros Hwk id s Hs.
  destruct c as [bucket0 key0 options|i partNumber data|i parts|i].
  - pose proof (run_create_uploads bucket0 key0 options w) as Hrun.
    destruct (send _ (backend w)) as [[err|out] b1].
    + destruct Hrun as [_ Heq]. rewrite Heq in Hs. eauto.
    + destruct (truthy_string (UploadId out)) eqn:Hid.
      * destruct Hrun as [_ Heq]. rewrite Heq in Hs.
        rewrite lookup_insert in Hs. case_decide as Hcase.
        -- injection Hs as <-. subst id. simpl. split; [reflexivity|].
           destruct (UploadId out) as [[|]|]; simpl in *; congruence.
        -- eauto.
      * destruct Hrun as [_ Heq]. rewrite Heq in Hs. eauto.
  - rewrite run_uploadPart_uploads in Hs. eauto.
  - destruct (uploads w !! i) as [s'|] eqn:Hi.
    + destruct (run_finish_uploads i (CallComplete i parts) s' w _ eq_refl Hi eq_refl)
        as [_ Hrun].
      destruct (send _ (backend w)).1; destruct Hrun as [_ Heq]; rewrite Heq in Hs;
        [eauto|].
      apply lookup_delete_Some in Hs as [_ Hs]. eauto.
    + rewrite (run_finish_untracked i (CallComplete i parts) w eq_refl Hi) in Hs. eauto.
  - destruct (uploads w !! i) as [s'|] eqn:Hi.
    + destruct (run_finish_uploads i (CallAbort i) s' w _ eq_refl Hi eq_refl)
        as [_ Hrun].
      destruct (send _ (backend w)).1; destruct Hrun as [_ Heq]; rewrite Heq in Hs;
        [eauto|].
      apply lookup_delete_Some in Hs as [_ Hs]. eauto.
    + rewrite (run_finish_untracked i (CallAbort i) w eq_refl Hi) in Hs. eauto.
Qed.

(** X17: through any sequence of multipart calls on a group that starts
    with no session, every tracked session is filed under its own upload
    id, and no session is filed under the empty string. *)
Theorem sessions_stay_well_keyed cs : forall w : World B,
  uploads w = ∅ ->
  forall id s,
    uploads (run_all cs w) !! id = Some s -> st_uploadId s = id /\ id <> "".
Proof.
  assert (Hgen : forall (cs : list MultipartCall) (w : World B),
             well_keyed (uploads w) -> well_keyed (uploads (run_all cs w))).
  { clear cs. induction cs as [|c cs IH]; intros w Hwk; simpl; [assumption|].
    apply IH. apply run_keeps_well_keyed. assumption. }
  intros w Hempty. apply Hgen. intros id s Hs. rewrite Hempty in Hs.
  rewrite lookup_empty in Hs. discriminate.
Qed.

End MultipartMore.




Lemma sessions_stay_well_keyed_witness :
  st_uploadId Demo.session_1 = "upload-1" /\ "upload-1" <> "".
Proof.
  apply (sessions_stay_well_keyed
           [CallCreate "valid-bucket" "big.bin" None; CallUploadPart "upload-1" 1 []]
           (Demo.fresh Demo.issuing) eq_refl "upload-1" Demo.session_1).
  vm_compute. reflexivity.
Defined.

(** ** All public methods *)

Ltac unfold_methods :=
  unfold invoke, run, createBucket, deleteBucket, listBuckets, getBucketInfo,
    uploadObject, getObject, getObjectStream, deleteObject, copyObject, headObject,
    listObjects, createMultipartUpload, uploadPart, completeMultipartUpload,
    abortMultipartUpload, getPresignedDownloadUrl, getPresignedUploadUrl,
    streamToBuffer, listBuckets, object_send, sign in *;
  unfold_M; simpl in *.

(** Splits on every backend answer and every test an operation makes. *)
Ltac split_run :=
  repeat match goal with
    | |- context [send ?c ?b] => destruct (send c b) as [[?|?] ?]; simpl in *
    | |- context [send_object ?c ?b] => destruct (send_object c b) as [[?|?] ?]; simpl in *
    | |- context [getSignedUrl ?c ?n ?b] =>
        destruct (getSignedUrl c n b) as [[?|?] ?]; simpl in *
    | |- context [uploads ?w !! ?i] => destruct (uploads w !! i); simpl in *
    | |- context [truthy_string (UploadId ?o)] =>
        destruct (truthy_string (UploadId o)); simpl in *
    | |- context [truthy_string (part_ETag ?o)] =>
        destruct (truthy_string (part_ETag o)); simpl in *
    | |- context [Body ?o] => destruct (Body o) as [?|]; simpl in *
    | |- context [failure ?s] => destruct (failure s) as [?|]; simpl in *
    | |- context [List.find ?f ?l] => destruct (List.find f l); simpl in *
    end.

Section MethodFacts.
Context {B : Type} `{!S3Client B} `{!S3ObjectClient B}.


(** X21: only the multipart methods touch the multipart sessions: after
    any other method, returned or thrown, the session map is what it was. *)
Theorem other_methods_keep_sessions (c : MethodCall) (w : World B) :
  is_multipart c = false -> uploads (invoke c w).2 = uploads w.
Proof.
  destruct c as [? ?|?| |?|? ? ? ?|? ? ?|? ? ?|? ?|? ? ? ? ?|? ?|? ?|[? ? ?|? ? ?|? ?|?]|? ? ?|? ? ?];
    unfold_methods; split_run; intros Hm; try reflexivity; discriminate Hm.
Qed.

(** X22: what the default logger prints, when DEBUG is not set: nothing at
    all for a method that returns; for a method that throws, error lines
    only, and at least one unless the method is a presigned-URL method
    (which never logs) or the error is the UPLOAD_NOT_FOUND of an untracked
    id (thrown before anything is logged). *)
Theorem default_logger_prints_errors_only (env : Env) (c : MethodCall) (w : World B) :
  truthy_string (env !! "DEBUG") = false ->
  exists added,
    trace (invoke c w).2 = trace w ++ added /\
    match (invoke c w).1 with
    | inr _ => console_output env added = []
    | inl e =>
        Forall (fun call => console_method call = ConsoleError) (console_output env added) /\
        (is_presigned c = false ->
         (exists f, e = OfFastly f /\ is_Some (cause f)) ->
         console_output env added <> [])
    end.
Proof.
  intros Hdebug.
  destruct c as [? ?|?| |?|? ? ? ?|? ? ?|? ? ?|? ?|? ? ? ? ?|? ?|? ?|[? ? ?|? ? ?|? ?|?]|? ? ?|? ? ?];
    unfold_methods; split_run;
    (eexists; split;
     [rewrite <- ?app_assoc; first [reflexivity | symmetry; apply app_nil_r]|]);
    unfold console_output; simpl; rewrite ?Hdebug; simpl;
    try reflexivity;
    (split;
     [repeat constructor
     |intros Hp Hc; first [discriminate Hp
                          |discriminate
                          |destruct Hc as (f & [= <-] & [x Hx]); discriminate Hx]]).
Qed.

(** X23: the cursor of a listing travels unchanged: the result of
    [listObjects] hands out the backend's keys in the backend's order, its
    truncation flag ([false] when the backend gives none) and its
    continuation token, and the request for the next page carries exactly
    that token, with the other options as before. *)
Theorem continuation_token_is_carried_unchanged bucket0 options (w : World B) r :
  (listObjects bucket0 options w).1 = inr r ->
  exists out,
    (send_object (list_command bucket0 options) (backend w)).1 = inr out /\
    map oi_key (contents r) = map obj_Key (nullish (Contents out) []) /\
    commonPrefixes r = map Prefix (nullish (CommonPrefixes out) []) /\
    isTruncated r = nullish (IsTruncated out) false /\
    nextContinuationToken r = NextContinuationToken out /\
    list_command bucket0 (Some (next_page options r)) =
      ListObjectsV2Command bucket0 (options ≫= lo_prefix) (options ≫= delimiter)
        (options ≫= lo_maxKeys) (NextContinuationToken out) (options ≫= startAfter).
Proof.
  unfold listObjects. unfold_methods.
  destruct (send_object _ (backend w)) as [[err|out] b1]; simpl; [discriminate|].
  intros [= <-]. exists out. simpl. repeat split.
  rewrite map_map. reflexivity.
Qed.


End MethodFacts.

(** ** Copy sources *)

Lemma slash_free_cons c s :
  slash_free (String c s) <-> c <> "/"%char /\ slash_free s.
Proof. unfold slash_free. simpl. split; [intros Hn|intros [Hc Hs] [Hx|Hx]]; intuition. Qed.

Lemma split_source_copy_source b k :
  slash_free b -> Store.split_source (copy_source b k) = Some (b, k).
Proof.
  induction b as [|c b IH]; intros Hfree; simpl; [reflexivity|].
  apply slash_free_cons in Hfree as [Hc Hb].
  destruct (Ascii.eqb c "/") eqn:Heq; [apply Ascii.eqb_eq in Heq; contradiction|].
  unfold copy_source in IH. rewrite (IH Hb). reflexivity.
Qed.

Lemma accepted_bucket_name_is_slash_free b :
  validateBucketName b = inr tt -> slash_free b.
Proof.
  intros Hok. apply validateBucketName_accepts_iff in Hok
    as (_ & (first & middle & last & Hcs & Hfirst & Hmiddle & Hlast) & _).
  unfold slash_free. rewrite Hcs. intros Hin.
  destruct Hin as [->|Hin]; [discriminate Hfirst|].
  apply in_app_or in Hin as [Hin|[->|[]]]; [|discriminate Hlast].
  rewrite Forall_forall in Hmiddle. apply list_elem_of_In in Hin.
  specialize (Hmiddle _ Hin). discriminate Hmiddle.
Qed.

(** X25: the copy source [copyObject] sends, [sourceBucket/sourceKey],
    determines the source whenever the bucket names have no slash, as is the
    case of every name [validateBucketName] accepts; keys may hold
    slashes. A slash in a bucket name, which [copyObject] does not refuse,
    makes two different sources read the same. *)
Theorem copy_source_determines_source b1 k1 b2 k2 :
  ((validateBucketName b1 = inr tt \/ slash_free b1) ->
   (validateBucketName b2 = inr tt \/ slash_free b2) ->
   copy_source b1 k1 = copy_source b2 k2 ->
   b1 = b2 /\ k1 = k2) /\
  copy_source "a/b" "c" = copy_source "a" "b/c".
Proof.
  split; [|reflexivity].
  intros H1 H2 Heq.
  assert (Hf1 : slash_free b1)
    by (destruct H1; [apply accepted_bucket_name_is_slash_free|]; assumption).
  assert (Hf2 : slash_free b2)
    by (destruct H2; [apply accepted_bucket_name_is_slash_free|]; assumption).
  apply (f_equal Store.split_source) in Heq.
  rewrite !split_source_copy_source in Heq by assumption.
  injection Heq as -> ->. split; reflexivity.
Qed.

Lemma copy_source_witness :
  "valid-bucket" = "valid-bucket" /\ "a/b.txt" = "a/b.txt".
Proof.
  apply (proj1 (copy_source_determines_source "valid-bucket" "a/b.txt"
                  "valid-bucket" "a/b.txt")).
  - left. reflexivity.
  - right. unfold slash_free. simpl. intros Hin.
    repeat (destruct Hin as [Hin|Hin]; [discriminate Hin|]). exact Hin.
  - reflexivity.
Defined.

(** ** The methods over a backend that stores what it is given *)




Lemma other_methods_keep_sessions_witness :
  uploads (invoke (Call_uploadObject "valid-bucket" "g.txt" (BufferData Store.hello) None)
             Store.with_hello).2 = ∅.
Proof.
  rewrite other_methods_keep_sessions; reflexivity.
Defined.

Lemma default_logger_witness :
  exists added,
    trace (invoke (Call_headObject "valid-bucket" "f.txt") Store.with_hello).2
      = trace Store.with_hello ++ added /\
    console_output (∅ : Env) added = [].
Proof.
  assert (Hdebug : truthy_string ((∅ : Env) !! "DEBUG") = false) by reflexivity.
  destruct (default_logger_prints_errors_only (∅ : Env)
              (Call_headObject "valid-bucket" "f.txt") Store.with_hello Hdebug)
    as (added & Htrace & Hout).
  exists added. split; [exact Htrace|].
  assert (Hok : exists r,
             (invoke (Call_headObject "valid-bucket" "f.txt") Store.with_hello).1 = inr r)
    by (eexists; vm_compute; reflexivity).
  destruct Hok as [r Hr]. rewrite Hr in Hout. exact Hout.
Defined.

Lemma continuation_token_witness :
  exists r,
    (listObjects "valid-bucket" None Store.with_hello).1 = inr r /\
    map oi_key (contents r) = [Some "f.txt"] /\ isTruncated r = false.
Proof.
  destruct (listObjects "valid-bucket" None Store.with_hello).1 as [e|r] eqn:Hrun;
    [vm_compute in Hrun; discriminate Hrun|].
  destruct (continuation_token_is_carried_unchanged "valid-bucket" None Store.with_hello
              r Hrun) as (out & Hout & Hkeys & _ & Htrunc & _).
  exists r. split; [reflexivity|].
  vm_compute in Hout. injection Hout as <-.
  rewrite Hkeys, Htrunc. split; reflexivity.
Defined.


(** * Numbers as doubles, and a logger that may throw *)

(** ** Doubles: comparison with zero, and integers up to 2^53 *)

Module NumberFacts.
Import SpecFloat Number.

Lemma lt_zero (x : number) : lt x (of_Z 0) = negative x.
Proof. destruct x as [s | s | | s m e]; try destruct s; reflexivity. Qed.

Lemma le_zero (x : number) : le x (of_Z 0) = negative x || zero x.
Proof. destruct x as [s | s | | s m e]; try destruct s; reflexivity. Qed.

Lemma digits2_pos_size (p : positive) : digits2_pos p = Pos.size p.
Proof. induction p; simpl; congruence. Qed.

Lemma digits2_pos_log2 (p : positive) :
  Z.pos (digits2_pos p) = Z.log2 (Z.pos p) + 1.
Proof.
  rewrite digits2_pos_size.
  destruct p; simpl; rewrite ?Pos2Z.inj_succ; lia.
Qed.

Lemma iter_xO (m d : positive) :
  Z.pos (Pos.iter xO m d) = Z.pos m * 2 ^ Z.pos d.
Proof.
  change (Pos.iter xO m d) with (shift_pos d m).
  rewrite shift_pos_correct, Z.pow_pos_fold. lia.
Qed.

Lemma iter_pos_nat {A} (f : A -> A) (p : positive) (x : A) :
  iter_pos f p x = Nat.iter (Pos.to_nat p) f x.
Proof.
  revert x. induction p as [p IH | p IH |]; intros x.
  - change (iter_pos f p~1 x) with (iter_pos f p (iter_pos f p (f x))).
    rewrite !IH, Pos2Nat.inj_xI, <- Nat.iter_add, <- Nat.iter_succ_r.
    f_equal. lia.
  - change (iter_pos f p~0 x) with (iter_pos f p (iter_pos f p x)).
    rewrite !IH, Pos2Nat.inj_xO, <- Nat.iter_add. f_equal. lia.
  - reflexivity.
Qed.

(** Shifting right over zero bits loses nothing. *)
Lemma shr_exact_nat (k : nat) (P M : positive) :
  Z.pos P = Z.pos M * 2 ^ Z.of_nat k ->
  Nat.iter k shr_1 (Build_shr_record (Z.pos P) false false)
  = Build_shr_record (Z.pos M) false false.
Proof.
  revert P. induction k as [| k IH]; intros P HP.
  - simpl in *. f_equal. lia.
  - rewrite Nat.iter_succ_r.
    rewrite Nat2Z.inj_succ, Z.pow_succ_r in HP by lia.
    set (Y := Z.pos M * 2 ^ Z.of_nat k) in *.
    assert (HY : Z.pos M * (2 * 2 ^ Z.of_nat k) = 2 * Y) by (unfold Y; ring).
    rewrite HY in HP.
    destruct P as [P | P |]; try lia.
    simpl shr_1. apply IH. fold Y. lia.
Qed.

Lemma shr_exact (d P M : positive) :
  Z.pos P = Z.pos M * 2 ^ Z.pos d ->
  iter_pos shr_1 d (Build_shr_record (Z.pos P) false false)
  = Build_shr_record (Z.pos M) false false.
Proof.
  intros HP. rewrite iter_pos_nat. apply shr_exact_nat.
  rewrite positive_nat_Z. exact HP.
Qed.

(** A value [m * 2^e] that the format holds exactly, as [M * 2^E] with [E]
    the exponent the format prescribes, is rounded to itself. [c] is any
    offset that makes both exponents non-negative. *)
Lemma binary_round_exact (s : bool) (m M : positive) (e E c : Z) :
  E = fexp prec emax (Z.pos (digits2_pos m) + e) ->
  E <= emax - prec ->
  0 <= e + c -> 0 <= E + c ->
  Z.pos m * 2 ^ (e + c) = Z.pos M * 2 ^ (E + c) ->
  binary_round prec emax s m e = S754_finite s M E.
Proof.
  intros HE Hmax He HEc Hval.
  assert (Hdig : forall (p : positive) (x : Z),
             Z.pos p * 2 ^ (x + c) = Z.pos M * 2 ^ (E + c) -> 0 <= x + c ->
             fexp prec emax (Z.pos (digits2_pos p) + x) = E).
  { intros p x Hp Hx. rewrite HE. f_equal.
    rewrite !digits2_pos_log2.
    assert (H1 : Z.log2 (Z.pos p * 2 ^ (x + c)) = x + c + Z.log2 (Z.pos p))
      by (apply Z.log2_mul_pow2; lia).
    assert (H2 : Z.log2 (Z.pos m * 2 ^ (e + c)) = e + c + Z.log2 (Z.pos m))
      by (apply Z.log2_mul_pow2; lia).
    rewrite Hp in H1. rewrite Hval in H2. lia. }
  assert (Hfinal : binary_round_aux prec emax s (Z.pos M) E loc_Exact
                   = S754_finite s M E).
  { unfold binary_round_aux, shr_fexp, Zdigits2.
    rewrite (Hdig M E eq_refl HEc), Z.sub_diag.
    cbv beta iota delta [shr shr_m loc_of_shr_record round_nearest_even
                         shr_record_of_loc].
    rewrite (Hdig M E eq_refl HEc), Z.sub_diag.
    cbv beta iota delta [shr shr_m].
    destruct (Z.leb_spec E (emax - prec)); [reflexivity | lia]. }
  unfold binary_round, shl_align. rewrite <- HE.
  destruct (E - e) as [| d | d] eqn:Hd.
  - assert (E = e) by lia. subst e.
    assert (M = m) by (apply Z.mul_cancel_r in Hval; [congruence | ];
                       apply Z.pow_nonzero; lia).
    subst m. exact Hfinal.
  - assert (He' : E + c = (e + c) + Z.pos d) by lia.
    rewrite He', (Z.pow_add_r 2 (e + c) (Z.pos d)) in Hval by lia.
    assert (Hm : Z.pos m = Z.pos M * 2 ^ Z.pos d).
    { apply (Z.mul_cancel_r _ _ (2 ^ (e + c))); [apply Z.pow_nonzero; lia |].
      rewrite Hval. ring. }
    unfold binary_round_aux, shr_fexp, Zdigits2.
    rewrite <- HE, Hd.
    cbv beta iota delta [shr_record_of_loc]. unfold shr at 1.
    rewrite (shr_exact d m M Hm).
    cbv beta iota delta [shr_m loc_of_shr_record round_nearest_even
                         shr_record_of_loc].
    replace (e + Z.pos d) with E by lia.
    rewrite (Hdig M E eq_refl HEc), Z.sub_diag.
    cbv beta iota delta [shr shr_m].
    destruct (Z.leb_spec E (emax - prec)); [reflexivity | lia].
  - assert (He' : e + c = (E + c) + Z.pos d) by lia.
    rewrite He', (Z.pow_add_r 2 (E + c) (Z.pos d)) in Hval by lia.
    assert (Hm : Z.pos (Pos.iter xO m d) = Z.pos M).
    { rewrite iter_xO.
      apply (Z.mul_cancel_r _ _ (2 ^ (E + c))); [apply Z.pow_nonzero; lia |].
      rewrite <- Hval. ring. }
    injection Hm as ->. exact Hfinal.
Qed.

(** Every integer value up to 2^53, however it is presented to the rounding
    function, is held exactly: the result is the one mantissa and exponent
    the format prescribes for that value. *)
Lemma binary_round_integer (s : bool) (P : positive) (e v : Z) :
  0 < v <= 2 ^ 53 -> 0 <= e + 52 ->
  Z.pos P * 2 ^ (e + 52) = v * 2 ^ 52 ->
  exists M : positive,
    binary_round prec emax s P e = S754_finite s M (Z.log2 v - 52)
    /\ v * 2 ^ 52 = Z.pos M * 2 ^ Z.log2 v.
Proof.
  intros Hv He HP.
  destruct (Z.log2_spec v) as [Hlo Hhi]; [lia |].
  assert (Hl0 : 0 <= Z.log2 v) by apply Z.log2_nonneg.
  assert (Hl : Z.log2 v <= 53).
  { destruct (Z_le_gt_dec (Z.log2 v) 53) as [Hle | Hgt]; [exact Hle |].
    assert (2 ^ 54 <= 2 ^ Z.log2 v) by (apply Z.pow_le_mono_r; lia).
    assert (2 ^ 53 < 2 ^ 54) by reflexivity. lia. }
  assert (HM : exists M : positive, v * 2 ^ 52 = Z.pos M * 2 ^ Z.log2 v).
  { destruct (Z_le_gt_dec (Z.log2 v) 52) as [Hle | Hgt].
    - exists (Z.to_pos (v * 2 ^ (52 - Z.log2 v))).
      assert (0 < 2 ^ (52 - Z.log2 v)) by (apply Z.pow_pos_nonneg; lia).
      rewrite Z2Pos.id by nia.
      rewrite <- Z.mul_assoc, <- Z.pow_add_r by lia.
      do 2 f_equal. lia.
    - assert (Hl53 : Z.log2 v = 53) by lia. rewrite Hl53 in *.
      assert (v = 2 ^ 53) by lia. subst v.
      exists (Z.to_pos (2 ^ 52)). reflexivity. }
  destruct HM as [M HM]. exists M. split; [| exact HM].
  apply (binary_round_exact s P M e (Z.log2 v - 52) 52).
  - rewrite digits2_pos_log2.
    assert (H1 : Z.log2 (Z.pos P * 2 ^ (e + 52)) = e + 52 + Z.log2 (Z.pos P))
      by (apply Z.log2_mul_pow2; lia).
    assert (H2 : Z.log2 (v * 2 ^ 52) = 52 + Z.log2 v)
      by (apply Z.log2_mul_pow2; lia).
    rewrite HP, H2 in H1.
    unfold fexp, emin, prec, emax. lia.
  - unfold emax, prec. lia.
  - exact He.
  - lia.
  - rewrite HP. replace (Z.log2 v - 52 + 52) with (Z.log2 v) by lia. exact HM.
Qed.

Lemma of_Z_integer (v : Z) :
  0 < v <= 2 ^ 53 ->
  exists M : positive,
    of_Z v = S754_finite false M (Z.log2 v - 52)
    /\ v * 2 ^ 52 = Z.pos M * 2 ^ Z.log2 v.
Proof.
  intros Hv. destruct v as [| P | P]; try lia.
  apply (binary_round_integer false P 0 (Z.pos P)); [exact Hv | lia | reflexivity].
Qed.

(** An integer within 2^53 of zero keeps its sign as a double. *)
Lemma of_Z_sign (v : Z) :
  - 2 ^ 53 <= v <= 2 ^ 53 ->
  negative (of_Z v) = (v <? 0) /\ zero (of_Z v) = (v =? 0).
Proof.
  intros Hv. destruct v as [| P | P].
  - split; reflexivity.
  - destruct (of_Z_integer (Z.pos P)) as [M [-> _]]; [lia |]. split; reflexivity.
  - destruct (binary_round_integer true P 0 (Z.pos P)) as [M [HM _]];
      [lia | lia | reflexivity |].
    unfold of_Z, binary_normalize. rewrite HM. split; reflexivity.
Qed.

Lemma to_Z_integer (M : positive) (v : Z) :
  0 < v -> v * 2 ^ 52 = Z.pos M * 2 ^ Z.log2 v ->
  to_Z (S754_finite false M (Z.log2 v - 52)) = Some v.
Proof.
  intros Hv HM. unfold to_Z, cond_Zopp.
  assert (Hl0 : 0 <= Z.log2 v) by apply Z.log2_nonneg.
  destruct (Z.leb_spec 0 (Z.log2 v - 52)) as [Hge | Hlt].
  - f_equal. apply (Z.mul_cancel_r _ _ (2 ^ 52)); [discriminate |].
    rewrite HM, <- Z.mul_assoc, <- Z.pow_add_r by lia.
    do 2 f_equal. lia.
  - assert (HMv : Z.pos M = v * 2 ^ (- (Z.log2 v - 52))).
    { apply (Z.mul_cancel_r _ _ (2 ^ Z.log2 v)); [apply Z.pow_nonzero; lia |].
      rewrite <- HM, <- Z.mul_assoc, <- Z.pow_add_r by lia.
      do 2 f_equal. lia. }
    assert (0 < 2 ^ (- (Z.log2 v - 52))) by (apply Z.pow_pos_nonneg; lia).
    rewrite HMv, Z.mod_mul, Z.div_mul by lia. reflexivity.
Qed.

(** Integers up to 2^53 survive the round trip through a double. *)
Lemma to_Z_of_Z (v : Z) : 0 <= v <= 2 ^ 53 -> to_Z (of_Z v) = Some v.
Proof.
  intros Hv. destruct (Z.eq_dec v 0) as [-> | Hne]; [reflexivity |].
  destruct (of_Z_integer v) as [M [-> HM]]; [lia |].
  apply to_Z_integer; [lia | exact HM].
Qed.

Lemma integer_mantissa_unique (M M' : positive) (v : Z) :
  v * 2 ^ 52 = Z.pos M * 2 ^ Z.log2 v ->
  v * 2 ^ 52 = Z.pos M' * 2 ^ Z.log2 v ->
  M = M'.
Proof.
  intros HM HM'. rewrite HM in HM'.
  apply Z.mul_cancel_r in HM'; [congruence |].
  apply Z.pow_nonzero; [lia | apply Z.log2_nonneg].
Qed.

(** Below 2^53 adding one to an integer is exact. *)
Lemma add_one_exact (n : Z) :
  0 <= n < 2 ^ 53 -> add (of_Z n) (of_Z 1) = of_Z (n + 1).
Proof.
  intros Hn. destruct (Z.eq_dec n 0) as [-> | Hne]; [reflexivity |].
  destruct (of_Z_integer n) as [Mn [Hn_eq HMn]]; [lia |].
  destruct (of_Z_integer (n + 1)) as [M [Hs_eq HM]]; [lia |].
  rewrite Hn_eq, Hs_eq.
  change (of_Z 1) with (S754_finite false 4503599627370496 (-52)).
  destruct (Z.log2_spec n) as [Hlo Hhi]; [lia |].
  assert (Hl0 : 0 <= Z.log2 n) by apply Z.log2_nonneg.
  assert (Hl : Z.log2 n <= 52).
  { destruct (Z_le_gt_dec (Z.log2 n) 52) as [Hle | Hgt]; [exact Hle |].
    assert (2 ^ 53 <= 2 ^ Z.log2 n) by (apply Z.pow_le_mono_r; lia). lia. }
  unfold add, SFadd.
  replace (Z.min (Z.log2 n - 52) (-52)) with (-52) by lia.
  assert (Hfst : Z.pos (fst (shl_align Mn (Z.log2 n - 52) (-52)))
                 = n * 2 ^ 52).
  { unfold shl_align.
    destruct (-52 - (Z.log2 n - 52)) as [| d | d] eqn:Hd; simpl fst.
    - assert (Hz : Z.log2 n = 0) by lia. rewrite Hz in HMn. lia.
    - lia.
    - rewrite iter_xO, HMn. f_equal. f_equal. lia. }
  change (fst (shl_align 4503599627370496 (-52) (-52)))
    with 4503599627370496%positive.
  unfold cond_Zopp. rewrite Hfst.
  assert (Hsum : n * 2 ^ 52 + 4503599627370496 = (n + 1) * 2 ^ 52)
    by (change 4503599627370496 with (2 ^ 52); ring).
  rewrite Hsum.
  assert (HP : exists P : positive, (n + 1) * 2 ^ 52 = Z.pos P)
    by (exists (Z.to_pos ((n + 1) * 2 ^ 52)); rewrite Z2Pos.id; lia).
  destruct HP as [P HP]. rewrite HP.
  unfold binary_normalize.
  destruct (binary_round_integer false P (-52) (n + 1)) as [M' [-> HM']];
    [lia | lia | change (2 ^ (-52 + 52)) with 1; lia |].
  f_equal. exact (integer_mantissa_unique M' M (n + 1) HM' HM).
Qed.

(** At 2^53 it is not: the sum rounds back to 2^53. *)
Lemma add_one_at_two_pow_53 : add (of_Z (2 ^ 53)) (of_Z 1) = of_Z (2 ^ 53).
Proof. reflexivity. Qed.

End NumberFacts.

(** ** Validation and construction over doubles *)

Module NumericConfigFacts.
Import Number NumericConfig.

Section Facts.
Context `{Platform} `{S3ClientConstructor} `{LoggerBehaviour}.

Lemma validateConfig_code config e :
  validateConfig config = inl e -> code e = "INVALID_CONFIG".
Proof.
  unfold validateConfig.
  repeat match goal with
         | |- context [if ?b then _ else _] => destruct b
         end; intros [= <-]; reflexivity.
Qed.

(** [validateConfig] throws exactly on the settings listed in [invalid]:
    [x < 0] holds of the negative numbers, [x <= 0] of these and of zero,
    and neither holds of [NaN]. *)
Lemma validateConfig_rejects_iff config :
  (exists e, validateConfig config = inl e) <-> invalid config.
Proof.
  unfold validateConfig, invalid.
  rewrite NumberFacts.lt_zero, NumberFacts.le_zero.
  destruct (endpoint config) as [| c0 s0]; simpl; [split; eauto |].
  destruct (accessKeyId config) as [| c1 s1]; simpl; [split; eauto |].
  destruct (secretAccessKey config) as [| c2 s2]; simpl; [split; eauto 6 |].
  destruct (isValidUrl (String c0 s0)); simpl; [| split; eauto 7].
  destruct (negative (maxRetries config)); simpl; [split; eauto 8 |].
  destruct (negative (timeout config) || zero (timeout config)); simpl;
    [split; eauto 9 |].
  split; [intros [e [=]] |].
  intros [Hx | [Hx | [Hx | [Hx | [Hx | Hx]]]]]; discriminate.
Qed.

Lemma validateConfig_accepts_iff config :
  validateConfig config = inr tt <-> ~ invalid config.
Proof.
  rewrite <- validateConfig_rejects_iff.
  destruct (validateConfig config) as [e | []]; split; try congruence.
  - intros Hno. destruct Hno. eauto.
  - intros _ [e [=]].
Qed.

(** What the constructor does, by the verdict of [validateConfig]. *)
Lemma new_client_outcome config env :
  let merged := _mergeConfig (nullish config empty_config) env in
  match validateConfig merged with
  | inl e => new_FastlyStorageClient config env = (inl (OfValidation e), [])
  | inr _ =>
      clients_created (new_FastlyStorageClient config env).2 = [clientConfig merged] /\
      ((exists facade,
           (new_FastlyStorageClient config env).1 = inr facade /\
           _config facade = merged /\ _s3Client facade = clientConfig merged) \/
       (exists thrown,
           (new_FastlyStorageClient config env).1 = inl (OfS3Client thrown) \/
           (new_FastlyStorageClient config env).1 = inl (OfLogger thrown)))
  end.
Proof.
  intros merged. unfold new_FastlyStorageClient. fold merged.
  destruct (validateConfig merged) as [e | u]; [reflexivity |].
  destruct (new_S3Client_throws _) as [thrown |]; simpl; [split; eauto |].
  destruct (logger_throws _ _ _ _ _) as [thrown |]; simpl; split; eauto.
Qed.

(** C8 (as the code behaves), with numbers as doubles: construction throws
    the INVALID_CONFIG error of [validateConfig], before any S3 client is
    created, exactly when the merged endpoint, access key id or secret
    access key is empty, the endpoint does not parse as a URL, maxRetries is
    below zero, or timeout is zero or below zero; otherwise [new S3Client]
    is called once, and the facade is returned unless that call or the
    logger throws. A timeout of [NaN] is not positive and yet is not
    refused: with it, construction fails only on one of the other five
    grounds. On integers up to 2^53 in magnitude the last two grounds read
    [maxRetries < 0] and [timeout <= 0]. *)
Theorem construction_refuses_invalid_settings_except_NaN config env :
  let merged := _mergeConfig (nullish config empty_config) env in
  let built := new_FastlyStorageClient config env in
  (invalid merged <->
     exists e, built = (inl (OfValidation e), []) /\ code e = "INVALID_CONFIG") /\
  (~ invalid merged ->
     clients_created built.2 = [clientConfig merged] /\
     ((exists facade, built.1 = inr facade /\ _config facade = merged) \/
      (exists thrown,
          built.1 = inl (OfS3Client thrown) \/ built.1 = inl (OfLogger thrown)))) /\
  (timeout merged = NaN ->
     (invalid merged <->
        endpoint merged = "" \/ accessKeyId merged = "" \/
        secretAccessKey merged = "" \/ isValidUrl (endpoint merged) = false \/
        negative (maxRetries merged) = true)) /\
  (forall r t,
      - 2 ^ 53 <= r <= 2 ^ 53 -> - 2 ^ 53 <= t <= 2 ^ 53 ->
      maxRetries merged = of_Z r -> timeout merged = of_Z t ->
      (invalid merged <->
         endpoint merged = "" \/ accessKeyId merged = "" \/
         secretAccessKey merged = "" \/ isValidUrl (endpoint merged) = false \/
         r < 0 \/ t <= 0)).
Proof.
  intros merged built.
  pose proof (new_client_outcome config env) as Hout. simpl in Hout.
  fold merged built in Hout.
  split; [| split; [| split]].
  - rewrite <- validateConfig_rejects_iff. split.
    + intros [e He]. rewrite He in Hout. exists e.
      split; [exact Hout | exact (validateConfig_code _ _ He)].
    + intros [e [Hbuilt _]].
      destruct (validateConfig merged) as [e' | u]; [eauto |].
      destruct Hout as [Hcreated _]. rewrite Hbuilt in Hcreated. discriminate.
  - intros Hvalid. apply validateConfig_accepts_iff in Hvalid.
    rewrite Hvalid in Hout. destruct Hout as [Hcreated Hres].
    split; [exact Hcreated |].
    destruct Hres as [(facade & Hf & Hc & _) | Hthrown]; eauto.
  - intros HNaN. unfold invalid. rewrite HNaN. simpl. intuition discriminate.
  - intros r t Hr Ht Hmr Hto. unfold invalid. rewrite Hmr, Hto.
    destruct (NumberFacts.of_Z_sign r Hr) as [-> _].
    destruct (NumberFacts.of_Z_sign t Ht) as [-> ->].
    rewrite orb_true_iff, !Z.ltb_lt, Z.eqb_eq. intuition lia.
Qed.

(** C10 (amended), with numbers as doubles: exactly when the settings are
    not refused, [new S3Client] is called, once, with [clientConfig], whose
    [maxAttempts] is the double sum of the merged maxRetries and 1. For
    every integer maxRetries from 0 up to 2^53 - 1 that sum is the integer
    maxRetries + 1; and an explicit maxRetries of 0 survives the merge and
    gives exactly one attempt. *)
Theorem s3_client_attempts_are_the_double_sum config env :
  let merged := _mergeConfig (nullish config empty_config) env in
  let built := new_FastlyStorageClient config env in
  (~ invalid merged <-> clients_created built.2 = [clientConfig merged]) /\
  (invalid merged -> clients_created built.2 = []) /\
  maxAttempts (clientConfig merged) = add (maxRetries merged) (of_Z 1) /\
  (forall n,
      0 <= n < 2 ^ 53 -> maxRetries merged = of_Z n ->
      maxAttempts (clientConfig merged) = of_Z (n + 1) /\
      to_Z (maxAttempts (clientConfig merged)) = Some (n + 1)) /\
  (forall c,
      config = Some c -> cfg_maxRetries c = Some (of_Z 0) ->
      to_Z (maxAttempts (clientConfig merged)) = Some 1).
Proof.
  intros merged built.
  pose proof (new_client_outcome config env) as Hout. simpl in Hout.
  fold merged built in Hout.
  assert (Hrefused : invalid merged -> clients_created built.2 = []).
  { intros Hinv. apply validateConfig_rejects_iff in Hinv as [e He].
    rewrite He in Hout. rewrite Hout. reflexivity. }
  split; [| split; [exact Hrefused | split; [reflexivity | split]]].
  - split.
    + intros Hvalid. apply validateConfig_accepts_iff in Hvalid.
      rewrite Hvalid in Hout. apply Hout.
    + intros Hcreated Hinv. rewrite (Hrefused Hinv) in Hcreated. discriminate.
  - intros n Hn Hmr.
    assert (Hsum : maxAttempts (clientConfig merged) = of_Z (n + 1)).
    { change (maxAttempts (clientConfig merged))
        with (add (maxRetries merged) (of_Z 1)).
      rewrite Hmr. apply NumberFacts.add_one_exact. exact Hn. }
    split; [exact Hsum |]. rewrite Hsum. apply NumberFacts.to_Z_of_Z. lia.
  - intros c -> Hzero. subst merged. simpl. rewrite Hzero. reflexivity.
Qed.

End Facts.

(** A timeout of [NaN] with otherwise complete settings: the S3 client is
    created, with [NaN] as its request timeout. *)
Lemma construction_with_NaN_timeout_witness :
  clients_created
    (@new_FastlyStorageClient Demo.https_only constructs_always ThrowingLogger.returns_always
       (Some NaN_timeout_config) ∅).2
  = [clientConfig (_mergeConfig NaN_timeout_config ∅)] /\
  requestTimeout (clientConfig (_mergeConfig NaN_timeout_config ∅)) = NaN.
Proof.
  destruct (@construction_refuses_invalid_settings_except_NaN
              Demo.https_only constructs_always ThrowingLogger.returns_always
              (Some NaN_timeout_config) ∅) as (_ & Hvalid & HNaN & _).
  split; [| reflexivity].
  apply Hvalid. intros Hinv. apply (HNaN eq_refl) in Hinv.
  vm_compute in Hinv.
  destruct Hinv as [Hx | [Hx | [Hx | [Hx | Hx]]]]; discriminate.
Defined.

(** C10 (as stated) fails: with 2^53 retries the settings are accepted and
    the S3 client is given 2^53 attempts, not 2^53 + 1. *)
Lemma two_pow_53_retries_get_no_extra_attempt :
  exists cfg,
    clients_created
      (@new_FastlyStorageClient Demo.https_only constructs_always ThrowingLogger.returns_always
         (Some (retries_config (of_Z (2 ^ 53)))) ∅).2 = [cfg] /\
    to_Z (maxRetries (_mergeConfig (retries_config (of_Z (2 ^ 53))) ∅)) = Some (2 ^ 53) /\
    to_Z (maxAttempts cfg) = Some (2 ^ 53) /\
    to_Z (maxAttempts cfg) <> Some (2 ^ 53 + 1).
Proof.
  eexists. split; [vm_compute; reflexivity |].
  split; [vm_compute; reflexivity |].
  split; [vm_compute; reflexivity | vm_compute; discriminate].
Qed.

(** No retry gives one attempt, five retries give six. *)
Lemma s3_client_attempts_in_doubles_witness :
  to_Z (maxAttempts (clientConfig (_mergeConfig (retries_config (of_Z 0)) ∅))) = Some 1 /\
  to_Z (maxAttempts (clientConfig (_mergeConfig (retries_config (of_Z 5)) ∅))) = Some 6.
Proof.
  split.
  - destruct (@s3_client_attempts_are_the_double_sum
                Demo.https_only constructs_always ThrowingLogger.returns_always
                (Some (retries_config (of_Z 0))) ∅) as (_ & _ & _ & _ & Hzero).
    apply (Hzero _ eq_refl eq_refl).
  - destruct (@s3_client_attempts_are_the_double_sum
                Demo.https_only constructs_always ThrowingLogger.returns_always
                (Some (retries_config (of_Z 5))) ∅) as (_ & _ & _ & Hint & _).
    destruct (Hint 5) as [_ Hfive]; [lia | reflexivity | exact Hfive].
Defined.

End NumericConfigFacts.

(** ** Multipart sessions when the logger may throw *)



Section ThrowingLoggerFacts.
Context {B : Type} `{!S3Client B} `{!LoggerBehaviour} (lg : Logger).








End ThrowingLoggerFacts.


